(** * Template registry: project-scoped alias uniqueness

    Shallow embedding of the template model
    (backend/models/template.py), the template service
    (backend/services/template_service.py) and the build endpoint
    (backend/api/template_build.py).

    The SQLAlchemy session is modelled as explicit state: the committed
    table, the table as the open transaction sees it, the changes that
    are not flushed yet, and the chronological trace of the calls made
    on the session.  Python exceptions are an explicit result. *)

From Stdlib Require Import List String NArith Bool Lia.
Import ListNotations.
Open Scope string_scope.
Open Scope list_scope.

(** ** Values *)

(** uuid.UUID values; every UUID object is truthy. *)
Definition UUID := N.

(** Dict[str, Any]: the build configuration, an opaque mapping. *)
Definition Config := list (string * string).

(** Python truthiness of the optional arguments of the service. *)
Definition truthy_str (a : option string) : bool :=
  match a with
  | None => false
  | Some x => negb (String.eqb x "")
  end.

Definition truthy_config (c : option Config) : bool :=
  match c with
  | None => false
  | Some [] => false
  | Some (_ :: _) => true
  end.

Definition truthy_uuid (u : option UUID) : bool :=
  match u with
  | None => false
  | Some _ => true
  end.

(** The exceptions that occur in the three source files.  All of them
    derive from Exception; IntegrityError is sqlalchemy's,
    HTTPException is fastapi's, TypeError and AttributeError are what
    Python raises on a keyword or an attribute an object does not have,
    ValidationException is declared in backend/exceptions.py,
    RuntimeError stands for whatever else a collaborator raises. *)
Inductive Exn :=
| IntegrityError
| ValueError (msg : string)
| TypeError (msg : string)
| AttributeError (msg : string)
| HTTPException (status_code : nat) (detail : string)
| ValidationException (field : string) (msg : string)
| RuntimeError (msg : string).

Definition is_IntegrityError (e : Exn) : bool :=
  match e with
  | IntegrityError => true
  | _ => false
  end.

Module Project.

Record t := mk { id : UUID; name : string }.

End Project.

(** ** The Template entity and its table *)

Module Template.

(** A Template object with the attributes the program reads or
    writes.  id, alias and project_id are the mapped columns of
    models/template.py.  config and dockerfile_content are not declared
    by the class: the constructor refuses them as keywords
    (invalid_keyword and Template_init below), and an object gets a
    config only by the assignment of update_template, line 107.  The
    record constructor mk is not the call Template(...); that call is
    Template_init. *)
Record t := mk {
  id : UUID;
  alias : string;
  project_id : UUID;
  config : Config;
  dockerfile_content : option string
}.

Definition set_alias (a : string) (r : t) : t :=
  mk (id r) a (project_id r) (config r) (dockerfile_content r).

Definition set_config (c : Config) (r : t) : t :=
  mk (id r) (alias r) (project_id r) c (dockerfile_content r).

(** The columns of templates_project_alias_unique. *)
Definition key (r : t) : UUID * string := (project_id r, alias r).

Definition same_key (a b : t) : bool :=
  N.eqb (project_id a) (project_id b) && String.eqb (alias a) (alias b).

Definition same_id (a b : t) : bool := N.eqb (id a) (id b).

(** The names the class body of models/template.py defines. *)
Definition declared : list string :=
  ["__tablename__"; "id"; "alias"; "project_id"; "__table_args__"; "project";
   "__repr__"; "get_by_project_and_alias"; "alias_exists_in_project"].

(** The declarative constructor sets each keyword with setattr and
    refuses the first one that is not an attribute of the class. *)
Definition invalid_keyword (kwargs : list string) : option string :=
  find (fun k => negb (existsb (String.eqb k) declared)) kwargs.

End Template.

Definition Table := list Template.t.

(** A change the session sends to the database at flush time. *)
Inductive Change :=
| Insert (r : Template.t)
| Update (r : Template.t)
| Delete (r : Template.t).

(** One statement on the table, under the primary key on id and the
    UniqueConstraint('project_id', 'alias'); None is IntegrityError. *)
Definition apply_change (c : Change) (tbl : Table) : option Table :=
  match c with
  | Insert r =>
      if existsb (Template.same_id r) tbl || existsb (Template.same_key r) tbl
      then None
      else Some (tbl ++ [r])
  | Update r =>
      if existsb (fun x => negb (Template.same_id r x) && Template.same_key r x) tbl
      then None
      else Some (map (fun x => if Template.same_id r x then r else x) tbl)
  | Delete r =>
      Some (filter (fun x => negb (Template.same_id r x)) tbl)
  end.

Fixpoint apply_changes (cs : list Change) (tbl : Table) : option Table :=
  match cs with
  | [] => Some tbl
  | c :: cs' =>
      match apply_change c tbl with
      | Some tbl' => apply_changes cs' tbl'
      | None => None
      end
  end.

(** The table states the database can be in: from the empty table, by
    statements the constraints accept. *)
Inductive reachable : Table -> Prop :=
| reachable_empty : reachable []
| reachable_step c tbl tbl' :
    reachable tbl -> apply_change c tbl = Some tbl' -> reachable tbl'.

(** No two rows at different positions share (project_id, alias). *)
Definition pair_unique (tbl : Table) : Prop := NoDup (map Template.key tbl).

Definition id_unique (tbl : Table) : Prop := NoDup (map Template.id tbl).

(** ** The session *)

Inductive DbCall :=
| SelectByProjectAlias (project_id : UUID) (alias : string) (exclude_id : option UUID)
| SelectByIdProject (template_id : UUID) (project_id : UUID)
| DbAdd (template_id : UUID)
| DbDelete (template_id : UUID)
| DbFlush
| DbCommit
| DbRollback.

Record Session := mkSession {
  committed : Table;
  rows : Table;
  pending : list Change;
  trace : list DbCall
}.

(** get_db: a new session on the database, nothing pending. *)
Definition get_db (tbl : Table) : Session := mkSession tbl tbl [] [].

Inductive Result (A : Type) :=
| Return (a : A)
| Raise (e : Exn).

Arguments Return {A} a.
Arguments Raise {A} e.

Definition M (A : Type) : Type := Session -> Result A * Session.

Definition ret {A} (a : A) : M A := fun s => (Return a, s).

Definition raise {A} (e : Exn) : M A := fun s => (Raise e, s).

Definition bind {A B} (m : M A) (f : A -> M B) : M B :=
  fun s =>
    match m s with
    | (Return a, s') => f a s'
    | (Raise e, s') => (Raise e, s')
    end.

(** try: m / except Exception as e: h e (a handler re-raises what it
    does not catch). *)
Definition try_except {A} (m : M A) (h : Exn -> M A) : M A :=
  fun s =>
    match m s with
    | (Return a, s') => (Return a, s')
    | (Raise e, s') => h e s'
    end.

Notation "x <- m ;; k" := (bind m (fun x => k))
  (at level 61, m at next level, right associativity).
Notation "m ;;; k" := (bind m (fun _ => k))
  (at level 61, right associativity).

Definition log (c : DbCall) : M unit :=
  fun s => (Return tt, mkSession (committed s) (rows s) (pending s) (trace s ++ [c])).

(** Send the pending changes to the database; a rejected statement
    raises IntegrityError and leaves the table as it was. *)
Definition flush_pending : M unit :=
  fun s =>
    match apply_changes (pending s) (rows s) with
    | Some tbl' => (Return tt, mkSession (committed s) tbl' [] (trace s))
    | None => (Raise IntegrityError, s)
    end.

(** session.flush() *)
Definition db_flush : M unit := log DbFlush ;;; flush_pending.

Definition db_add (r : Template.t) : M unit :=
  fun s =>
    (Return tt,
     mkSession (committed s) (rows s) (pending s ++ [Insert r])
               (trace s ++ [DbAdd (Template.id r)])).

Definition db_delete (r : Template.t) : M unit :=
  fun s =>
    (Return tt,
     mkSession (committed s) (rows s) (pending s ++ [Delete r])
               (trace s ++ [DbDelete (Template.id r)])).

(** Attribute assignment on a persistent object: an UPDATE at the next
    flush. *)
Definition db_dirty (r : Template.t) : M unit :=
  fun s => (Return tt, mkSession (committed s) (rows s) (pending s ++ [Update r]) (trace s)).

(** session.commit(): flush, then make the transaction durable. *)
Definition db_commit : M unit :=
  log DbCommit ;;;
  flush_pending ;;;
  fun s => (Return tt, mkSession (rows s) (rows s) [] (trace s)).

(** session.rollback(): drop everything since the last commit. *)
Definition db_rollback : M unit :=
  fun s => (Return tt, mkSession (committed s) (committed s) [] (trace s ++ [DbRollback])).

(** session.query(Template).filter(...).first(); the session
    autoflushes before the SELECT. *)
Definition query_first (c : DbCall) (p : Template.t -> bool) : M (option Template.t) :=
  flush_pending ;;;
  log c ;;;
  fun s => (Return (find p (rows s)), s).

(** What other sessions commit while this one is between two of its
    statements; the identity when nobody else writes. *)
Definition interleave (race : Table -> Table) : M unit :=
  fun s =>
    (Return tt, mkSession (race (committed s)) (race (rows s)) (pending s) (trace s)).

(** ** Template classmethods *)

Definition in_project_with_alias (project_id : UUID) (alias : string)
  (r : Template.t) : bool :=
  N.eqb (Template.project_id r) project_id && String.eqb (Template.alias r) alias.

Definition get_by_project_and_alias (project_id : UUID) (alias : string)
  : M (option Template.t) :=
  query_first (SelectByProjectAlias project_id alias None)
              (in_project_with_alias project_id alias).

(** The filter of alias_exists_in_project, with its optional
    cls.id != exclude_id. *)
Definition alias_filter (project_id : UUID) (alias : string)
  (exclude_id : option UUID) (r : Template.t) : bool :=
  in_project_with_alias project_id alias r &&
  match exclude_id with
  | Some x => if truthy_uuid exclude_id then negb (N.eqb (Template.id r) x) else true
  | None => true
  end.

Definition alias_exists_in_project (project_id : UUID) (alias : string)
  (exclude_id : option UUID) : M bool :=
  first <- query_first (SelectByProjectAlias project_id alias exclude_id)
                       (alias_filter project_id alias exclude_id) ;;
  ret (match first with Some _ => true | None => false end).

(** The call Template(...): r is the object the keywords describe; a
    keyword the class does not declare raises TypeError. *)
Definition Template_init (kwargs : list string) (r : Template.t) : M Template.t :=
  match Template.invalid_keyword kwargs with
  | Some k =>
      raise (TypeError ("'" ++ k ++ "' is an invalid keyword argument for Template")%string)
  | None => ret r
  end.

(** ** The build backend *)

Module BuildSystem.

(** start_build either returns or raises. *)
Record t := mk { outcome : Template.t -> option Exn }.

Definition start_build (self : t) (template : Template.t) : M unit :=
  match outcome self template with
  | None => ret tt
  | Some e => raise e
  end.

End BuildSystem.

(** ** TemplateService *)

Module TemplateService.

Record t := mk { project : Project.t }.

(** What a method can receive as self: an instance, or the session
    when the function is called on the class with db first. *)
Inductive Receiver :=
| ServiceObj (svc : t)
| SessionObj.

(** self.db *)
Definition self_db (self : Receiver) : M t :=
  match self with
  | ServiceObj svc => ret svc
  | SessionObj => raise (AttributeError "'Session' object has no attribute 'db'")
  end.

Definition by_id_in_project (template_id project_id : UUID) (r : Template.t) : bool :=
  N.eqb (Template.id r) template_id && N.eqb (Template.project_id r) project_id.

(** Lines 44-46: the application pre-check. *)
Definition create_template_check (self : t) (alias : string) : M unit :=
  found <- alias_exists_in_project (Project.id (project self)) alias None ;;
  if found
  then raise (ValueError ("Alias '" ++ alias ++ "' already exists in project '"
                            ++ Project.name (project self) ++ "'")%string)
  else ret tt.

(** Lines 48-71: the try block and its except IntegrityError; uid is
    the value uuid.uuid4 gives the new row. *)
Definition create_template_persist (build_system : BuildSystem.t) (self : t)
  (alias : string) (config : Config) (dockerfile_content : option string)
  (uid : UUID) : M Template.t :=
  try_except
    (template <-
       Template_init ["alias"; "project_id"; "config"; "dockerfile_content"]
         (Template.mk uid alias (Project.id (project self)) config dockerfile_content) ;;
     db_add template ;;;
     db_flush ;;;
     BuildSystem.start_build build_system template ;;;
     db_commit ;;;
     ret template)
    (fun e =>
       match e with
       | IntegrityError =>
           db_rollback ;;;
           raise (ValueError ("Alias '" ++ alias ++ "' already exists in project")%string)
       | _ => raise e
       end).

Definition create_template (build_system : BuildSystem.t) (self : t)
  (alias : string) (config : Config) (dockerfile_content : option string)
  (uid : UUID) : M Template.t :=
  create_template_check self alias ;;;
  create_template_persist build_system self alias config dockerfile_content uid.

(** create_template with another writer between the pre-check and the
    insert. *)
Definition create_template_racing (race : Table -> Table)
  (build_system : BuildSystem.t) (self : t)
  (alias : string) (config : Config) (dockerfile_content : option string)
  (uid : UUID) : M Template.t :=
  create_template_check self alias ;;;
  interleave race ;;;
  create_template_persist build_system self alias config dockerfile_content uid.

Definition update_template (self : t) (template_id : UUID)
  (alias : option string) (config : option Config) : M Template.t :=
  found <- query_first (SelectByIdProject template_id (Project.id (project self)))
                       (by_id_in_project template_id (Project.id (project self))) ;;
  match found with
  | None => raise (ValueError "Template not found in project")
  | Some template =>
      template1 <-
        match alias with
        | Some a =>
            if truthy_str alias && negb (String.eqb a (Template.alias template))
            then
              taken <- alias_exists_in_project (Project.id (project self)) a
                                               (Some (Template.id template)) ;;
              if taken
              then raise (ValueError ("Alias '" ++ a ++ "' already exists in project")%string)
              else db_dirty (Template.set_alias a template) ;;;
                   ret (Template.set_alias a template)
            else ret template
        | None => ret template
        end ;;
      template2 <-
        match config with
        | Some c =>
            if truthy_config config
            then db_dirty (Template.set_config c template1) ;;;
                 ret (Template.set_config c template1)
            else ret template1
        | None => ret template1
        end ;;
      db_commit ;;;
      ret template2
  end.

Definition delete_template (self : Receiver) (template_id : UUID) : M bool :=
  svc <- self_db self ;;
  found <- query_first (SelectByIdProject template_id (Project.id (project svc)))
                       (by_id_in_project template_id (Project.id (project svc))) ;;
  match found with
  | None => ret false
  | Some template =>
      db_delete template ;;;
      db_commit ;;;
      ret true
  end.

Definition get_template (self : t) (template_id : UUID) : M (option Template.t) :=
  query_first (SelectByIdProject template_id (Project.id (project self)))
              (by_id_in_project template_id (Project.id (project self))).

Definition get_by_alias (self : t) (alias : string) : M (option Template.t) :=
  get_by_project_and_alias (Project.id (project self)) alias.

End TemplateService.

(** ** The build endpoint *)

Module BuildRequest.

Record t := mk {
  alias : string;
  config : Config;
  dockerfile_content : option string;
  force_rebuild : bool
}.

End BuildRequest.

Module BuildResponse.

Record t := mk { template_id : UUID; status : string; message : string }.

End BuildResponse.

(** request_build of backend/api/template_build.py; its two except
    clauses are tried in order on whatever the try body raises. *)
Definition request_build (build_system : BuildSystem.t)
  (build_request : BuildRequest.t) (project : Project.t) (uid : UUID)
  : M BuildResponse.t :=
  try_except
    (existing_template <-
       get_by_project_and_alias (Project.id project) (BuildRequest.alias build_request) ;;
     match existing_template with
     | Some existing =>
         if BuildRequest.force_rebuild build_request
         then _ <- TemplateService.delete_template TemplateService.SessionObj
                     (Template.id existing) ;; ret tt
         else raise (HTTPException 400
                       ("Alias '" ++ BuildRequest.alias build_request
                          ++ "' is already taken in project '"
                          ++ Project.name project ++ "'")%string)
     | None => ret tt
     end ;;;
     let template_service := TemplateService.mk project in
     template <- TemplateService.create_template build_system template_service
                   (BuildRequest.alias build_request)
                   (BuildRequest.config build_request)
                   (BuildRequest.dockerfile_content build_request) uid ;;
     ret (BuildResponse.mk (Template.id template) "building"
                           "Template build started successfully"))
    (fun e =>
       if is_IntegrityError e
       then raise (HTTPException 400
                     "Template build failed due to data integrity constraints")
       else raise (HTTPException 500 "Internal server error during template build")).

(** ** Sample data *)

Definition P1 : Project.t := Project.mk 1%N "Test Project 1".
Definition P2 : Project.t := Project.mk 2%N "Test Project 2".

Definition accepting : BuildSystem.t := BuildSystem.mk (fun _ => None).

Definition refusing (e : Exn) : BuildSystem.t := BuildSystem.mk (fun _ => Some e).

Definition web1 : Template.t := Template.mk 10%N "web" 1%N [] None.
Definition web2 : Template.t := Template.mk 20%N "web" 2%N [] None.
Definition unnamed1 : Template.t := Template.mk 11%N "" 1%N [] None.

Definition svc1 : TemplateService.t := TemplateService.mk P1.
Definition svc2 : TemplateService.t := TemplateService.mk P2.

(** ** Observations used in the statements *)

Definition is_return {A} (r : Result A) : bool :=
  match r with
  | Return _ => true
  | Raise _ => false
  end.

(** A session with no uncommitted work, after the calls in tr. *)
Definition clean (tbl : Table) (tr : list DbCall) : Session :=
  mkSession tbl tbl [] tr.

(** pair_unique as a check. *)
Fixpoint pair_uniqueb (tbl : Table) : bool :=
  match tbl with
  | [] => true
  | r :: rest => negb (existsb (Template.same_key r) rest) && pair_uniqueb rest
  end.

(** The alias update_template assigns, if any: line 98. *)
Definition new_alias (alias : option string) (template : Template.t) : option string :=
  match alias with
  | Some a =>
      if truthy_str alias && negb (String.eqb a (Template.alias template))
      then Some a else None
  | None => None
  end.

(** The config update_template assigns, if any: line 106. *)
Definition new_config (config : option Config) : option Config :=
  match config with
  | Some c => if truthy_config config then Some c else None
  | None => None
  end.

(** The row update_template returns when nothing raises. *)
Definition updated (alias : option string) (config : option Config)
  (template : Template.t) : Template.t :=
  let t1 := match new_alias alias template with
            | Some a => Template.set_alias a template
            | None => template
            end in
  match new_config config with
  | Some c => Template.set_config c t1
  | None => t1
  end.

(** The UPDATEs that are pending when update_template commits. *)
Definition updates (alias : option string) (config : option Config)
  (template : Template.t) : list Change :=
  match new_alias alias template with
  | Some a => [Update (Template.set_alias a template)]
  | None => []
  end ++
  match new_config config with
  | Some _ => [Update (updated alias config template)]
  | None => []
  end.

(** The calls update_template makes before its commit. *)
Definition update_selects (project_id : UUID) (alias : option string)
  (template : Template.t) : list DbCall :=
  SelectByIdProject (Template.id template) project_id ::
  match new_alias alias template with
  | Some a => [SelectByProjectAlias project_id a (Some (Template.id template))]
  | None => []
  end.

(** The UPDATE check of the unique constraint: another row has the key. *)
Definition key_taken (r : Template.t) (tbl : Table) : bool :=
  existsb (fun x => negb (Template.same_id r x) && Template.same_key r x) tbl.

(** Both tables of the session are states the database can be in. *)
Definition session_ok (s : Session) : Prop :=
  reachable (committed s) /\ reachable (rows s).

Definition preserves {A} (m : M A) : Prop :=
  forall s, session_ok s -> session_ok (snd (m s)).

(** m never changes the committed table. *)
Definition keeps_committed {A} (m : M A) : Prop :=
  forall s, committed (snd (m s)) = committed s.

(** m changes the committed table only when it returns. *)
Definition commits_last {A} (m : M A) : Prop :=
  forall s e s', m s = (Raise e, s') -> committed s' = committed s.

(** The primary key as a check. *)
Fixpoint id_uniqueb (tbl : Table) : bool :=
  match tbl with
  | [] => true
  | r :: rest => negb (existsb (Template.same_id r) rest) && id_uniqueb rest
  end.

(** ** backend/exceptions.py *)

Module Exceptions.

(** needle in hay *)
Fixpoint contains (needle hay : string) : bool :=
  String.prefix needle hay ||
  match hay with
  | EmptyString => false
  | String _ rest => contains needle rest
  end.

(** s.replace(old, new) for a non-empty old: the occurrences of old
    are taken from left to right and do not overlap; skip counts the
    characters of an occurrence that are still to be dropped. *)
Fixpoint replace_from (skip : nat) (old new s : string) : string :=
  match s with
  | EmptyString => EmptyString
  | String c rest =>
      match skip with
      | S k => replace_from k old new rest
      | O =>
          if String.prefix old s
          then (new ++ replace_from (String.length old - 1) old new rest)%string
          else String c (replace_from 0 old new rest)
      end
  end.

Definition replace (old new s : string) : string := replace_from 0 old new s.

(** The attributes E2BException.__init__ sets. *)
Record E2BException := mk {
  message : string;
  status_code : nat;
  details : Config
}.

(** E2BException(message, status_code=500, details=None); an argument
    that is not passed is None here. *)
Definition E2BException_init (message : string) (status_code : option nat)
  (details : option Config) : E2BException :=
  mk message
     (match status_code with Some c => c | None => 500 end)
     (match details with Some ((_ :: _) as d) => d | _ => [] end).

(** The message BuildException.__init__ passes on. *)
Definition build_message (message : string) : string :=
  if contains "already taken" message && negb (contains "project" message)
  then replace "is already taken" "is already taken in your project" message
  else message.

(** BuildException(message, status_code=400, details=None) *)
Definition BuildException (message : string) (status_code : option nat)
  (details : option Config) : E2BException :=
  E2BException_init (build_message message)
    (Some (match status_code with Some c => c | None => 400 end)) details.

End Exceptions.

(** ** backend/api/template_endpoints.py over backend/db/template_model.py *)

Module Endpoints.

(** A row of the templates table of template_model.py; created_at is
    the server default now(), updated_at is set on UPDATE only. *)
Record Template := mkTemplate {
  id : string;
  alias : string;
  project_id : string;
  dockerfile : string;
  created_at : N;
  updated_at : option N
}.

(** What the endpoint can raise: BuildException, or the IntegrityError
    of the commit. *)
Inductive Raised :=
| RaiseBuildException (e : Exceptions.E2BException)
| RaiseIntegrityError.

Inductive Outcome (A : Type) :=
| Ok (a : A)
| Failed (e : Raised).

Arguments Ok {A} a.
Arguments Failed {A} e.

(** dict.get on a JSON object with string values. *)
Fixpoint dict_get (k : string) (d : list (string * string)) : option string :=
  match d with
  | [] => None
  | (k', v) :: rest => if String.eqb k' k then Some v else dict_get k rest
  end.

(** The request: its headers. *)
Record Request := mkRequest { headers : list (string * string) }.

Definition get_project_id_from_api_key (request : Request) : string :=
  let api_key := match dict_get "X-API-Key" (headers request) with
                 | Some k => k
                 | None => ""
                 end in
  "default_project".

(** Template.alias == alias and Template.project_id == project_id; a
    None alias compares as IS NULL, which no row satisfies. *)
Definition alias_in_project (alias : option string) (project_id : string)
  (r : Template) : bool :=
  match alias with
  | Some a => String.eqb (Endpoints.alias r) a && String.eqb (Endpoints.project_id r) project_id
  | None => false
  end.

(** db.add(new_template); db.commit() under the primary key, the
    nullable=False of alias and the unique idx_alias_project. *)
Definition insert (id : string) (alias : option string) (project_id dockerfile : string)
  (now : N) (tbl : list Template) : option (Template * list Template) :=
  match alias with
  | None => None
  | Some a =>
      if existsb (fun r => String.eqb (Endpoints.id r) id) tbl
         || existsb (alias_in_project alias project_id) tbl
      then None
      else let r := mkTemplate id a project_id dockerfile now None in
           Some (r, tbl ++ [r])
  end.

Record BuildResult := mkBuildResult {
  template_id : string;
  result_alias : string;
  result_project_id : string;
  status : string
}.

(** f-string rendering of an optional string. *)
Definition fmt (a : option string) : string :=
  match a with
  | Some s => s
  | None => "None"
  end.

(** build_template; uid is str(uuid.uuid4()), now the clock of the
    database. *)
Definition build_template (template_data : list (string * string))
  (request : Request) (uid : string) (now : N) (tbl : list Template)
  : Outcome BuildResult * list Template :=
  let alias := dict_get "alias" template_data in
  let project_id := get_project_id_from_api_key request in
  match find (alias_in_project alias project_id) tbl with
  | Some existing_template =>
      (Failed (RaiseBuildException
                 (Exceptions.BuildException
                    ("Alias '" ++ fmt alias ++ "' is already taken in project '"
                       ++ project_id ++ "'")%string
                    (Some 400) None)),
       tbl)
  | None =>
      match insert uid alias project_id
                   (match dict_get "dockerfile" template_data with
                    | Some d => d
                    | None => ""
                    end) now tbl with
      | Some (new_template, tbl') =>
          (Ok (mkBuildResult (id new_template) (Endpoints.alias new_template)
                             (Endpoints.project_id new_template) "building"),
           tbl')
      | None => (Failed RaiseIntegrityError, tbl)
      end
  end.

End Endpoints.

(** ** Tables under the two constraints *)

Lemma same_key_eq (a b : Template.t) :
  Template.same_key a b = true <-> Template.key a = Template.key b.
Proof.
  unfold Template.same_key, Template.key.
  rewrite andb_true_iff, N.eqb_eq, String.eqb_eq.
  split; [intros [-> ->]; reflexivity | intros E; inversion E; auto].
Qed.

Lemma same_id_eq (a b : Template.t) :
  Template.same_id a b = true <-> Template.id a = Template.id b.
Proof. unfold Template.same_id. apply N.eqb_eq. Qed.

Lemma existsb_same_key (r : Template.t) (tbl : Table) :
  existsb (Template.same_key r) tbl = true <-> In (Template.key r) (map Template.key tbl).
Proof.
  rewrite existsb_exists, in_map_iff. split.
  - intros [x [Hx E]]. exists x. apply same_key_eq in E. auto.
  - intros [x [E Hx]]. exists x. split; [assumption|]. apply same_key_eq. auto.
Qed.

Lemma existsb_same_id (r : Template.t) (tbl : Table) :
  existsb (Template.same_id r) tbl = true <-> In (Template.id r) (map Template.id tbl).
Proof.
  rewrite existsb_exists, in_map_iff. split.
  - intros [x [Hx E]]. exists x. apply same_id_eq in E. auto.
  - intros [x [E Hx]]. exists x. split; [assumption|]. apply same_id_eq. auto.
Qed.

Lemma pair_uniqueb_spec (tbl : Table) : pair_uniqueb tbl = true <-> pair_unique tbl.
Proof.
  unfold pair_unique. induction tbl as [|r rest IH]; simpl.
  - split; [constructor | reflexivity].
  - rewrite andb_true_iff, negb_true_iff, IH. split.
    + intros [Hn Hr]. constructor; [|assumption].
      rewrite <- existsb_same_key. congruence.
    + intros H. inversion H as [|? ? Hn Hr]; subst. split; [|assumption].
      rewrite <- existsb_same_key in Hn. destruct (existsb _ rest); congruence.
Qed.

Lemma NoDup_snoc {A} (l : list A) (x : A) :
  NoDup l -> ~ In x l -> NoDup (l ++ [x]).
Proof.
  induction l as [|a l IH]; simpl; intros Hl Hx.
  - constructor; [intros []|constructor].
  - inversion Hl; subst. constructor.
    + rewrite in_app_iff. simpl. intuition congruence.
    + apply IH; intuition.
Qed.

Lemma delete_keeps_unique {B} (col : Template.t -> B) (r : Template.t) (tbl : Table) :
  NoDup (map col tbl) ->
  NoDup (map col (filter (fun x => negb (Template.same_id r x)) tbl)).
Proof.
  induction tbl as [|a tbl IH]; simpl; intros H; [constructor|].
  inversion H as [|? ? Hn Hr]; subst.
  destruct (negb (Template.same_id r a)); simpl; [constructor|]; auto.
  intros Hin. apply Hn. apply in_map_iff in Hin as [x [E Hx]].
  apply filter_In in Hx. apply in_map_iff. exists x. intuition.
Qed.

Lemma NoDup_map_inj {A B} (f : A -> B) (l : list A) (a b : A) :
  NoDup (map f l) -> In a l -> In b l -> f a = f b -> a = b.
Proof.
  induction l as [|x l IH]; simpl; intros H Ha Hb E; [contradiction|].
  inversion H as [|? ? Hn Hr]; subst.
  destruct Ha as [-> | Ha], Hb as [-> | Hb]; auto.
  - exfalso. apply Hn. rewrite E. apply in_map. assumption.
  - exfalso. apply Hn. rewrite <- E. apply in_map. assumption.
Qed.

Lemma update_map_id (r : Template.t) (tbl : Table) :
  map Template.id (map (fun x => if Template.same_id r x then r else x) tbl)
  = map Template.id tbl.
Proof.
  induction tbl as [|x tbl IH]; simpl; [reflexivity|]. rewrite IH. f_equal.
  destruct (Template.same_id r x) eqn:E; [|reflexivity].
  apply same_id_eq in E. assumption.
Qed.

Lemma update_absent (r : Template.t) (tbl : Table) :
  ~ In (Template.id r) (map Template.id tbl) ->
  map (fun x => if Template.same_id r x then r else x) tbl = tbl.
Proof.
  induction tbl as [|x tbl IH]; simpl; intros H; [reflexivity|].
  destruct (Template.same_id r x) eqn:E.
  - apply same_id_eq in E. exfalso. apply H. left. congruence.
  - rewrite IH; [reflexivity|]. intuition.
Qed.

Lemma update_pair_unique (r : Template.t) (tbl : Table) :
  id_unique tbl -> pair_unique tbl ->
  existsb (fun x => negb (Template.same_id r x) && Template.same_key r x) tbl = false ->
  pair_unique (map (fun x => if Template.same_id r x then r else x) tbl).
Proof.
  unfold id_unique, pair_unique.
  induction tbl as [|x tbl IH]; simpl; intros Hid Hk Hc; [constructor|].
  inversion Hid as [|? ? Hidn Hidr]; subst.
  inversion Hk as [|? ? Hkn Hkr]; subst.
  apply orb_false_iff in Hc as [Hx Hc].
  assert (Hothers : forall y, In y tbl -> Template.same_id r y = false ->
                              Template.key y <> Template.key r).
  { intros y Hy Ey Ek.
    assert (existsb (fun x => negb (Template.same_id r x) && Template.same_key r x) tbl = true);
      [|congruence].
    apply existsb_exists. exists y. split; [assumption|].
    rewrite Ey. simpl. apply same_key_eq. congruence. }
  destruct (Template.same_id r x) eqn:E.
  - apply same_id_eq in E. rewrite update_absent by congruence.
    constructor; [|assumption].
    intros Hin. apply in_map_iff in Hin as [y [Ek Hy]].
    apply (Hothers y Hy); [|assumption].
    destruct (Template.same_id r y) eqn:Ey; [|reflexivity].
    apply same_id_eq in Ey. exfalso. apply Hidn.
    apply in_map_iff. exists y. split; [congruence|assumption].
  - constructor; [|apply IH; assumption].
    intros Hin. apply in_map_iff in Hin as [y [Ek Hy]].
    apply in_map_iff in Hy as [z [Ez Hz]].
    destruct (Template.same_id r z) eqn:Erz; subst y.
    + simpl in Hx.
      assert (Template.same_key r x = true) by (apply same_key_eq; congruence).
      congruence.
    + apply Hkn. apply in_map_iff. exists z. split; assumption.
Qed.

Lemma apply_change_invariant (c : Change) (tbl tbl' : Table) :
  apply_change c tbl = Some tbl' ->
  id_unique tbl /\ pair_unique tbl -> id_unique tbl' /\ pair_unique tbl'.
Proof.
  unfold id_unique, pair_unique. intros H [Hid Hk]. destruct c as [r|r|r]; simpl in H.
  - destruct (existsb (Template.same_id r) tbl) eqn:Ei; [discriminate|].
    destruct (existsb (Template.same_key r) tbl) eqn:Ek; [discriminate|].
    simpl in H. inversion H; subst. rewrite !map_app. simpl. split.
    + apply NoDup_snoc; [assumption|]. rewrite <- existsb_same_id. congruence.
    + apply NoDup_snoc; [assumption|]. rewrite <- existsb_same_key. congruence.
  - destruct (existsb _ tbl) eqn:Ec; [discriminate|]. inversion H; subst. split.
    + rewrite update_map_id. assumption.
    + apply update_pair_unique; assumption.
  - inversion H; subst. split; apply delete_keeps_unique; assumption.
Qed.

Lemma reachable_invariant (tbl : Table) :
  reachable tbl -> id_unique tbl /\ pair_unique tbl.
Proof.
  induction 1 as [|c tbl tbl' _ IH H].
  - split; constructor.
  - eapply apply_change_invariant; eassumption.
Qed.

Lemma apply_changes_reachable (cs : list Change) (tbl tbl' : Table) :
  reachable tbl -> apply_changes cs tbl = Some tbl' -> reachable tbl'.
Proof.
  revert tbl. induction cs as [|c cs IH]; simpl; intros tbl Hr H.
  - inversion H; subst. assumption.
  - destruct (apply_change c tbl) as [t1|] eqn:E; [|discriminate].
    eapply IH; [|eassumption]. eapply reachable_step; eassumption.
Qed.

(** ** The session stays on reachable tables *)

Lemma preserves_ret {A} (a : A) : preserves (ret a).
Proof. intros s H. exact H. Qed.

Lemma preserves_raise {A} (e : Exn) : preserves (@raise A e).
Proof. intros s H. exact H. Qed.

Lemma preserves_bind {A B} (m : M A) (f : A -> M B) :
  preserves m -> (forall a, preserves (f a)) -> preserves (bind m f).
Proof.
  intros Hm Hf s H. unfold bind. specialize (Hm s H).
  destruct (m s) as [[a|e] s']; simpl in *; [apply Hf|]; assumption.
Qed.

Lemma preserves_try_except {A} (m : M A) (h : Exn -> M A) :
  preserves m -> (forall e, preserves (h e)) -> preserves (try_except m h).
Proof.
  intros Hm Hh s H. unfold try_except. specialize (Hm s H).
  destruct (m s) as [[a|e] s']; simpl in *; [|apply Hh]; assumption.
Qed.

Lemma preserves_log (c : DbCall) : preserves (log c).
Proof. intros s H. exact H. Qed.

Lemma preserves_flush_pending : preserves flush_pending.
Proof.
  intros s [Hc Hr]. unfold flush_pending.
  destruct (apply_changes (pending s) (rows s)) as [tbl'|] eqn:E; simpl.
  - split; [assumption|]. eapply apply_changes_reachable; eassumption.
  - split; assumption.
Qed.

Lemma preserves_db_flush : preserves db_flush.
Proof.
  apply preserves_bind; [apply preserves_log|].
  intros _. apply preserves_flush_pending.
Qed.

Lemma preserves_db_add (r : Template.t) : preserves (db_add r).
Proof. intros s H. exact H. Qed.

Lemma preserves_db_delete (r : Template.t) : preserves (db_delete r).
Proof. intros s H. exact H. Qed.

Lemma preserves_db_dirty (r : Template.t) : preserves (db_dirty r).
Proof. intros s H. exact H. Qed.

Lemma preserves_db_commit : preserves db_commit.
Proof.
  apply preserves_bind; [apply preserves_log|]. intros _.
  apply preserves_bind; [apply preserves_flush_pending|]. intros _.
  intros s [_ Hr]. split; exact Hr.
Qed.

Lemma preserves_db_rollback : preserves db_rollback.
Proof. intros s [Hc _]. split; exact Hc. Qed.

Lemma preserves_query_first (c : DbCall) (p : Template.t -> bool) :
  preserves (query_first c p).
Proof.
  apply preserves_bind; [apply preserves_flush_pending|]. intros _.
  apply preserves_bind; [apply preserves_log|]. intros _.
  intros s H. exact H.
Qed.

Lemma preserves_interleave (race : Table -> Table) :
  (forall tbl, reachable tbl -> reachable (race tbl)) -> preserves (interleave race).
Proof. intros Hrace s [Hc Hr]. split; apply Hrace; assumption. Qed.

Create HintDb session discriminated.

#[export] Hint Resolve preserves_ret preserves_raise preserves_log
  preserves_flush_pending preserves_db_flush preserves_db_add
  preserves_db_delete preserves_db_dirty preserves_db_commit
  preserves_db_rollback preserves_query_first : session.

Ltac preserve :=
  repeat first
    [ solve [auto with session]
    | apply preserves_bind; [|intros ?]
    | apply preserves_try_except; [|intros ?]
    | match goal with
      | |- preserves (match ?x with _ => _ end) => destruct x
      | |- preserves (if ?b then _ else _) => destruct b
      end ].

Lemma preserves_alias_exists (project_id : UUID) (alias : string) (ex : option UUID) :
  preserves (alias_exists_in_project project_id alias ex).
Proof. unfold alias_exists_in_project. preserve. Qed.

Lemma preserves_start_build (bs : BuildSystem.t) (r : Template.t) :
  preserves (BuildSystem.start_build bs r).
Proof. unfold BuildSystem.start_build. preserve. Qed.

Lemma preserves_Template_init kwargs r : preserves (Template_init kwargs r).
Proof. unfold Template_init. preserve. Qed.

#[export] Hint Resolve preserves_alias_exists preserves_start_build
  preserves_Template_init : session.

Lemma preserves_create_template_persist bs svc alias config dockerfile uid :
  preserves (TemplateService.create_template_persist bs svc alias config dockerfile uid).
Proof. unfold TemplateService.create_template_persist. preserve. Qed.

Lemma preserves_create_template_check svc alias :
  preserves (TemplateService.create_template_check svc alias).
Proof. unfold TemplateService.create_template_check. preserve. Qed.

Lemma preserves_create_template bs svc alias config dockerfile uid :
  preserves (TemplateService.create_template bs svc alias config dockerfile uid).
Proof.
  unfold TemplateService.create_template.
  apply preserves_bind; [apply preserves_create_template_check|].
  intros _. apply preserves_create_template_persist.
Qed.

Lemma preserves_create_template_racing race bs svc alias config dockerfile uid :
  (forall tbl, reachable tbl -> reachable (race tbl)) ->
  preserves (TemplateService.create_template_racing
               race bs svc alias config dockerfile uid).
Proof.
  intros Hrace. unfold TemplateService.create_template_racing.
  apply preserves_bind; [apply preserves_create_template_check|]. intros _.
  apply preserves_bind; [apply preserves_interleave; exact Hrace|]. intros _.
  apply preserves_create_template_persist.
Qed.

Lemma preserves_update_template svc template_id alias config :
  preserves (TemplateService.update_template svc template_id alias config).
Proof. unfold TemplateService.update_template. preserve. Qed.

Lemma preserves_delete_template self template_id :
  preserves (TemplateService.delete_template self template_id).
Proof.
  unfold TemplateService.delete_template, TemplateService.self_db. preserve.
Qed.

Lemma preserves_request_build bs br project uid :
  preserves (request_build bs br project uid).
Proof.
  unfold request_build, get_by_project_and_alias.
  apply preserves_try_except.
  - apply preserves_bind; [auto with session|]. intros existing.
    apply preserves_bind.
    + destruct existing; [|auto with session].
      destruct (BuildRequest.force_rebuild br); [|auto with session].
      apply preserves_bind; [apply preserves_delete_template|auto with session].
    + intros _. apply preserves_bind; [apply preserves_create_template|].
      auto with session.
  - intros e. destruct (is_IntegrityError e); auto with session.
Qed.

(** ** Evaluation on a session with nothing pending *)

Arguments apply_change : simpl never.

Lemma find_existsb {A} (p : A -> bool) (l : list A) :
  match find p l with Some _ => true | None => false end = existsb p l.
Proof.
  induction l as [|a l IH]; simpl; [reflexivity|]. destruct (p a); auto.
Qed.

Lemma query_first_eval c p cm tbl tr :
  query_first c p (mkSession cm tbl [] tr)
  = (Return (find p tbl), mkSession cm tbl [] (tr ++ [c])).
Proof. reflexivity. Qed.

Lemma alias_exists_eval project_id alias ex cm tbl tr :
  alias_exists_in_project project_id alias ex (mkSession cm tbl [] tr)
  = (Return (existsb (alias_filter project_id alias ex) tbl),
     mkSession cm tbl [] (tr ++ [SelectByProjectAlias project_id alias ex])).
Proof.
  unfold alias_exists_in_project, bind. rewrite query_first_eval.
  unfold ret. rewrite find_existsb. reflexivity.
Qed.

Lemma alias_filter_no_exclude project_id alias tbl :
  existsb (alias_filter project_id alias None) tbl
  = existsb (in_project_with_alias project_id alias) tbl.
Proof.
  induction tbl as [|r tbl IH]; simpl; [reflexivity|].
  rewrite IH. unfold alias_filter. rewrite andb_true_r. reflexivity.
Qed.

Lemma check_eval svc alias cm tbl tr :
  TemplateService.create_template_check svc alias (mkSession cm tbl [] tr)
  = (if existsb (in_project_with_alias (Project.id (TemplateService.project svc)) alias) tbl
     then Raise (ValueError ("Alias '" ++ alias ++ "' already exists in project '"
                   ++ Project.name (TemplateService.project svc) ++ "'")%string)
     else Return tt,
     mkSession cm tbl [] (tr ++ [SelectByProjectAlias
                                   (Project.id (TemplateService.project svc)) alias None])).
Proof.
  unfold TemplateService.create_template_check, bind. rewrite alias_exists_eval.
  rewrite alias_filter_no_exclude.
  destruct (existsb _ tbl); reflexivity.
Qed.

(** The try block stops at the constructor: config is not a keyword
    the class knows, and TypeError is not what the except clause
    catches. *)
Lemma persist_raises bs svc alias config dockerfile uid s :
  TemplateService.create_template_persist bs svc alias config dockerfile uid s
  = (Raise (TypeError "'config' is an invalid keyword argument for Template"), s).
Proof. reflexivity. Qed.

Lemma insert_rejected r tbl :
  existsb (Template.same_id r) tbl || existsb (Template.same_key r) tbl = true ->
  apply_change (Insert r) tbl = None.
Proof. intros H. unfold apply_change. rewrite H. reflexivity. Qed.

Lemma update_not_found svc template_id alias config cm tbl tr :
  find (TemplateService.by_id_in_project template_id
          (Project.id (TemplateService.project svc))) tbl = None ->
  TemplateService.update_template svc template_id alias config (mkSession cm tbl [] tr)
  = (Raise (ValueError "Template not found in project"),
     mkSession cm tbl []
       (tr ++ [SelectByIdProject template_id (Project.id (TemplateService.project svc))])).
Proof.
  intros H. unfold TemplateService.update_template, bind.
  rewrite query_first_eval, H. reflexivity.
Qed.

Lemma find_by_id template_id project_id tbl r :
  find (TemplateService.by_id_in_project template_id project_id) tbl = Some r ->
  In r tbl /\ Template.id r = template_id /\ Template.project_id r = project_id.
Proof.
  intros H. apply find_some in H as [Hin H].
  unfold TemplateService.by_id_in_project in H.
  apply andb_true_iff in H as [H1 H2]. apply N.eqb_eq in H1, H2. auto.
Qed.

Lemma update_found svc template_id alias config cm tbl tr template :
  find (TemplateService.by_id_in_project template_id
          (Project.id (TemplateService.project svc))) tbl = Some template ->
  TemplateService.update_template svc template_id alias config (mkSession cm tbl [] tr)
  = match new_alias alias template with
    | Some a =>
        if existsb (alias_filter (Project.id (TemplateService.project svc)) a
                                 (Some (Template.id template))) tbl
        then (Raise (ValueError ("Alias '" ++ a ++ "' already exists in project")%string),
              mkSession cm tbl []
                (tr ++ update_selects (Project.id (TemplateService.project svc))
                         alias template))
        else
          match apply_changes (updates alias config template) tbl with
          | Some tbl' =>
              (Return (updated alias config template),
               mkSession tbl' tbl' []
                 (tr ++ update_selects (Project.id (TemplateService.project svc))
                          alias template ++ [DbCommit]))
          | None =>
              (Raise IntegrityError,
               mkSession cm tbl (updates alias config template)
                 (tr ++ update_selects (Project.id (TemplateService.project svc))
                          alias template ++ [DbCommit]))
          end
    | None =>
        match apply_changes (updates alias config template) tbl with
        | Some tbl' =>
            (Return (updated alias config template),
             mkSession tbl' tbl' []
               (tr ++ update_selects (Project.id (TemplateService.project svc))
                        alias template ++ [DbCommit]))
        | None =>
            (Raise IntegrityError,
             mkSession cm tbl (updates alias config template)
               (tr ++ update_selects (Project.id (TemplateService.project svc))
                        alias template ++ [DbCommit]))
        end
    end.
Proof.
  intros H. pose proof (find_by_id _ _ _ _ H) as [_ [Hid _]].
  unfold TemplateService.update_template, bind at 1.
  rewrite query_first_eval, H.
  unfold updates, updated, update_selects, new_alias, new_config.
  rewrite Hid.
  destruct alias as [a|]; [destruct (truthy_str (Some a) && _) eqn:Ea|];
    destruct config as [c|]; try destruct (truthy_config (Some c)) eqn:Ec;
    unfold bind; try rewrite alias_exists_eval;
    try destruct (existsb (alias_filter _ a _) tbl) eqn:Et;
    unfold raise, ret, db_dirty, db_commit, bind, log, flush_pending; simpl;
    rewrite <- ?app_assoc; simpl; try reflexivity;
    repeat match goal with
    | |- context [match apply_change ?c ?t with _ => _ end] =>
        destruct (apply_change c t); simpl
    end; rewrite <- ?app_assoc; try reflexivity.
Qed.

Lemma delete_found svc template_id cm tbl tr template :
  find (TemplateService.by_id_in_project template_id
          (Project.id (TemplateService.project svc))) tbl = Some template ->
  TemplateService.delete_template (TemplateService.ServiceObj svc) template_id
    (mkSession cm tbl [] tr)
  = (Return true,
     clean (filter (fun x => negb (Template.same_id template x)) tbl)
       (tr ++ [SelectByIdProject template_id (Project.id (TemplateService.project svc));
               DbDelete template_id; DbCommit])).
Proof.
  intros H. pose proof (find_by_id _ _ _ _ H) as [_ [Hid _]].
  unfold TemplateService.delete_template, TemplateService.self_db, bind at 1 2.
  unfold ret at 1. rewrite query_first_eval, H.
  unfold db_delete, db_commit, bind, log, flush_pending, ret, clean. simpl.
  rewrite Hid, <- !app_assoc. reflexivity.
Qed.

Lemma delete_not_found svc template_id cm tbl tr :
  find (TemplateService.by_id_in_project template_id
          (Project.id (TemplateService.project svc))) tbl = None ->
  TemplateService.delete_template (TemplateService.ServiceObj svc) template_id
    (mkSession cm tbl [] tr)
  = (Return false,
     mkSession cm tbl []
       (tr ++ [SelectByIdProject template_id (Project.id (TemplateService.project svc))])).
Proof.
  intros H.
  unfold TemplateService.delete_template, TemplateService.self_db, bind at 1 2.
  unfold ret at 1. rewrite query_first_eval, H. reflexivity.
Qed.

Lemma preserved_pair_unique {A} (m : M A) (s : Session) :
  preserves m -> session_ok s ->
  pair_unique (committed (snd (m s))) /\ pair_unique (rows (snd (m s))).
Proof.
  intros Hm Hs. destruct (Hm s Hs) as [Hc Hr].
  split; apply reachable_invariant; assumption.
Qed.

Lemma create_template_eval_free bs svc alias config dockerfile uid cm tbl tr :
  existsb (in_project_with_alias (Project.id (TemplateService.project svc)) alias) tbl
    = false ->
  TemplateService.create_template bs svc alias config dockerfile uid
    (mkSession cm tbl [] tr)
  = (Raise (TypeError "'config' is an invalid keyword argument for Template"),
     mkSession cm tbl []
       (tr ++ [SelectByProjectAlias (Project.id (TemplateService.project svc)) alias None])).
Proof.
  intros Hfree.
  unfold TemplateService.create_template, bind. rewrite check_eval, Hfree.
  apply persist_raises.
Qed.

Lemma create_template_eval_taken bs svc alias config dockerfile uid cm tbl tr :
  existsb (in_project_with_alias (Project.id (TemplateService.project svc)) alias) tbl
    = true ->
  TemplateService.create_template bs svc alias config dockerfile uid
    (mkSession cm tbl [] tr)
  = (Raise (ValueError ("Alias '" ++ alias ++ "' already exists in project '"
                          ++ Project.name (TemplateService.project svc) ++ "'")%string),
     mkSession cm tbl []
       (tr ++ [SelectByProjectAlias (Project.id (TemplateService.project svc)) alias None])).
Proof.
  intros Htaken.
  unfold TemplateService.create_template, bind. rewrite check_eval, Htaken.
  reflexivity.
Qed.

(** ** Nothing is committed before a method can fail *)

Lemma kc_ret {A} (a : A) : keeps_committed (ret a).
Proof. intros s. reflexivity. Qed.

Lemma kc_raise {A} (e : Exn) : keeps_committed (@raise A e).
Proof. intros s. reflexivity. Qed.

Lemma kc_log (c : DbCall) : keeps_committed (log c).
Proof. intros s. reflexivity. Qed.

Lemma kc_flush_pending : keeps_committed flush_pending.
Proof.
  intros s. unfold flush_pending.
  destruct (apply_changes (pending s) (rows s)); reflexivity.
Qed.

Lemma kc_db_add (r : Template.t) : keeps_committed (db_add r).
Proof. intros s. reflexivity. Qed.

Lemma kc_db_delete (r : Template.t) : keeps_committed (db_delete r).
Proof. intros s. reflexivity. Qed.

Lemma kc_db_dirty (r : Template.t) : keeps_committed (db_dirty r).
Proof. intros s. reflexivity. Qed.

Lemma kc_db_rollback : keeps_committed db_rollback.
Proof. intros s. reflexivity. Qed.

Lemma kc_bind {A B} (m : M A) (f : A -> M B) :
  keeps_committed m -> (forall a, keeps_committed (f a)) -> keeps_committed (bind m f).
Proof.
  intros Hm Hf s. unfold bind. specialize (Hm s).
  destruct (m s) as [[a|e] s1]; simpl in *; [rewrite Hf|]; exact Hm.
Qed.

Create HintDb committed discriminated.

#[export] Hint Resolve kc_ret kc_raise kc_log kc_flush_pending kc_db_add
  kc_db_delete kc_db_dirty kc_db_rollback : committed.

Ltac keep :=
  repeat first
    [ solve [auto with committed]
    | apply kc_bind; [|intros ?]
    | match goal with
      | |- keeps_committed (match ?x with _ => _ end) => destruct x
      | |- keeps_committed (if ?b then _ else _) => destruct b
      end ].

Lemma kc_db_flush : keeps_committed db_flush.
Proof. unfold db_flush. keep. Qed.

Lemma kc_query_first c p : keeps_committed (query_first c p).
Proof.
  unfold query_first. apply kc_bind; [keep|]. intros _.
  apply kc_bind; [keep|]. intros _. intros s. reflexivity.
Qed.

#[export] Hint Resolve kc_db_flush kc_query_first : committed.

Lemma kc_alias_exists project_id alias ex :
  keeps_committed (alias_exists_in_project project_id alias ex).
Proof. unfold alias_exists_in_project. keep. Qed.

Lemma kc_get_by_project_and_alias project_id alias :
  keeps_committed (get_by_project_and_alias project_id alias).
Proof. unfold get_by_project_and_alias. keep. Qed.

Lemma kc_create_template_check svc alias :
  keeps_committed (TemplateService.create_template_check svc alias).
Proof.
  unfold TemplateService.create_template_check.
  apply kc_bind; [apply kc_alias_exists|]. intros found. keep.
Qed.

Lemma kc_delete_on_session template_id :
  keeps_committed
    (TemplateService.delete_template TemplateService.SessionObj template_id).
Proof. intros s. reflexivity. Qed.

#[export] Hint Resolve kc_alias_exists kc_get_by_project_and_alias
  kc_create_template_check kc_delete_on_session : committed.

Lemma cl_of_kc {A} (m : M A) : keeps_committed m -> commits_last m.
Proof. intros H s e s' E. specialize (H s). rewrite E in H. exact H. Qed.

Lemma cl_bind {A B} (m : M A) (f : A -> M B) :
  keeps_committed m -> (forall a, commits_last (f a)) -> commits_last (bind m f).
Proof.
  intros Hm Hf s e s' H. unfold bind in H. specialize (Hm s).
  destruct (m s) as [[a|e0] s1]; simpl in Hm.
  - apply Hf in H. congruence.
  - inversion H; subst. exact Hm.
Qed.

Lemma cl_bind_ret {A B} (m : M A) (g : A -> B) :
  commits_last m -> commits_last (bind m (fun a => ret (g a))).
Proof.
  intros Hm s e s' H. unfold bind in H.
  destruct (m s) as [[a|e0] s1] eqn:E; [discriminate|].
  inversion H; subst. apply (Hm s e s'). exact E.
Qed.

Lemma cl_try_except {A} (m : M A) (h : Exn -> M A) :
  commits_last m -> (forall e, commits_last (h e)) -> commits_last (try_except m h).
Proof.
  intros Hm Hh s e s' H. unfold try_except in H.
  destruct (m s) as [[a|e0] s1] eqn:E; [discriminate|].
  apply Hh in H. apply Hm in E. congruence.
Qed.

Lemma cl_db_commit : commits_last db_commit.
Proof.
  intros s e s' H. unfold db_commit, bind, log, flush_pending in H. simpl in H.
  destruct (apply_changes (pending s) (rows s)); inversion H. reflexivity.
Qed.

Lemma cl_create_template bs svc alias config dockerfile uid :
  commits_last (TemplateService.create_template bs svc alias config dockerfile uid).
Proof.
  unfold TemplateService.create_template.
  apply cl_bind; [apply kc_create_template_check|]. intros _.
  intros s e s' H. rewrite persist_raises in H. inversion H. reflexivity.
Qed.

Lemma kc_create_template bs svc alias config dockerfile uid :
  keeps_committed (TemplateService.create_template bs svc alias config dockerfile uid).
Proof.
  intros s. unfold TemplateService.create_template, bind.
  pose proof (kc_create_template_check svc alias s) as Hc.
  destruct (TemplateService.create_template_check svc alias s) as [[u|x] s1];
    [rewrite persist_raises|]; exact Hc.
Qed.

Lemma cl_update_template svc template_id alias config :
  commits_last (TemplateService.update_template svc template_id alias config).
Proof.
  unfold TemplateService.update_template.
  apply cl_bind; [keep|]. intros found.
  destruct found as [template|]; [|apply cl_of_kc; keep].
  apply cl_bind; [keep|]. intros template1.
  apply cl_bind; [keep|]. intros template2.
  apply (cl_bind_ret db_commit (fun _ => template2)), cl_db_commit.
Qed.

Lemma cl_delete_template self template_id :
  commits_last (TemplateService.delete_template self template_id).
Proof.
  unfold TemplateService.delete_template.
  apply cl_bind; [unfold TemplateService.self_db; keep|]. intros svc.
  apply cl_bind; [keep|]. intros found.
  destruct found as [template|]; [|apply cl_of_kc; keep].
  apply cl_bind; [keep|]. intros _.
  apply (cl_bind_ret db_commit (fun _ => true)), cl_db_commit.
Qed.

Lemma cl_request_build bs br project uid :
  commits_last (request_build bs br project uid).
Proof.
  unfold request_build. apply cl_try_except.
  - apply cl_bind; [keep|]. intros existing.
    apply cl_bind; [keep|]. intros _.
    apply (cl_bind_ret _ (fun template =>
             BuildResponse.mk (Template.id template) "building"
                              "Template build started successfully")).
    apply cl_create_template.
  - intros e. apply cl_of_kc. keep.
Qed.

(** create_template raises on every session: the pre-check raises, or
    the constructor does. *)
Lemma create_template_raises bs svc alias config dockerfile uid s :
  is_return (fst (TemplateService.create_template bs svc alias config dockerfile uid s))
  = false.
Proof.
  unfold TemplateService.create_template, bind.
  destruct (TemplateService.create_template_check svc alias s) as [[u|e] s1];
    [rewrite persist_raises|]; reflexivity.
Qed.

(** ** The claims *)

(** C1: in every reachable table no two distinct rows share both
    project_id and alias.  The constraint is the database's: an INSERT
    of an occupied pair is rejected whatever the caller checked before,
    so the property holds after create_template_persist run without
    its pre-check, after every service method and after request_build.
    Alias alone is not unique: a reachable table holds the same alias
    in two projects. *)
Theorem pair_unique_enforced_by_storage :
  (forall tbl, reachable tbl ->
     pair_unique tbl /\
     forall a b, In a tbl -> In b tbl ->
       Template.project_id a = Template.project_id b ->
       Template.alias a = Template.alias b -> a = b) /\
  (forall tbl r, existsb (Template.same_key r) tbl = true ->
     apply_change (Insert r) tbl = None) /\
  (forall tbl r, key_taken r tbl = true -> apply_change (Update r) tbl = None) /\
  (forall s, session_ok s ->
     (forall bs svc alias config dockerfile uid,
        pair_unique (committed (snd (TemplateService.create_template_persist
                                       bs svc alias config dockerfile uid s))) /\
        pair_unique (committed (snd (TemplateService.create_template
                                       bs svc alias config dockerfile uid s)))) /\
     (forall race bs svc alias config dockerfile uid,
        (forall tbl, reachable tbl -> reachable (race tbl)) ->
        pair_unique (committed (snd (TemplateService.create_template_racing
                                       race bs svc alias config dockerfile uid s)))) /\
     (forall svc template_id alias config,
        pair_unique (committed (snd (TemplateService.update_template
                                       svc template_id alias config s)))) /\
     (forall self template_id,
        pair_unique (committed (snd (TemplateService.delete_template
                                       self template_id s)))) /\
     (forall bs br project uid,
        pair_unique (committed (snd (request_build bs br project uid s))))) /\
  (reachable [web1; web2] /\
   Template.alias web1 = Template.alias web2 /\ web1 <> web2).
Proof.
  split; [|split; [|split; [|split]]].
  - intros tbl H. apply reachable_invariant in H as [_ Hk]. split; [exact Hk|].
    intros a b Ha Hb Hp Hal.
    apply (NoDup_map_inj Template.key tbl a b Hk Ha Hb).
    unfold Template.key. congruence.
  - intros tbl r H. apply insert_rejected. rewrite H. apply orb_true_r.
  - intros tbl r H. unfold apply_change. unfold key_taken in H. rewrite H.
    reflexivity.
  - intros s Hs. repeat split; intros.
    + apply preserved_pair_unique; [apply preserves_create_template_persist|exact Hs].
    + apply preserved_pair_unique; [apply preserves_create_template|exact Hs].
    + apply preserved_pair_unique; [|exact Hs].
      apply preserves_create_template_racing. assumption.
    + apply preserved_pair_unique; [apply preserves_update_template|exact Hs].
    + apply preserved_pair_unique; [apply preserves_delete_template|exact Hs].
    + apply preserved_pair_unique; [apply preserves_request_build|exact Hs].
  - split; [|split; [reflexivity|discriminate]].
    apply (reachable_step (Insert web2) [web1]); [|reflexivity].
    apply (reachable_step (Insert web1) []); [constructor|reflexivity].
Qed.

Lemma pair_unique_enforced_by_storage_witness :
  pair_unique [web1; web2] /\
  apply_change (Insert (Template.mk 30%N "web" 1%N [] None)) [web1; web2] = None.
Proof.
  split.
  - apply (proj1 pair_unique_enforced_by_storage [web1; web2]).
    apply (reachable_step (Insert web2) [web1]); [|reflexivity].
    apply (reachable_step (Insert web1) []); [constructor|reflexivity].
  - apply (proj1 (proj2 pair_unique_enforced_by_storage)). reflexivity.
Defined.

(** C2: on a session in which the caller has added a row whose pair
    is taken, the query of the pre-check flushes it outside the try
    block and the IntegrityError reaches the caller of create_template
    as it is.  With nothing pending, a writer who takes the pair
    between the pre-check and the insert is not met by the except
    clause either: the constructor raises TypeError before db.add. *)
Theorem create_template_lets_integrity_error_out :
  fst (TemplateService.create_template accepting svc2 "api" [] None 20%N
         (mkSession [web1] [web1] [Insert (Template.mk 30%N "web" 1%N [] None)] []))
  = Raise IntegrityError /\
  committed
    (snd (TemplateService.create_template accepting svc2 "api" [] None 20%N
            (mkSession [web1] [web1] [Insert (Template.mk 30%N "web" 1%N [] None)] [])))
  = [web1] /\
  TemplateService.create_template_racing (fun t => t ++ [web1]) accepting svc1
    "web" [] None 12%N (get_db [web2])
  = (Raise (TypeError "'config' is an invalid keyword argument for Template"),
     mkSession [web2; web1] [web2; web1] [] [SelectByProjectAlias 1%N "web" None]).
Proof. repeat split; reflexivity. Qed.

(** C3: the pre-check of create_template looks at the calling project
    only, so the row of project 1 does not stop a create in project 2;
    but the create does not succeed: the constructor is given config
    and dockerfile_content, which the Template class does not declare,
    and raises TypeError.  No row is added. *)
Theorem create_template_in_other_project_raises_type_error :
  fst (alias_exists_in_project 2%N "web" None (get_db [web1])) = Return false /\
  Template.invalid_keyword ["alias"; "project_id"; "config"; "dockerfile_content"]
  = Some "config" /\
  TemplateService.create_template accepting svc2 "web" [] None 20%N (get_db [web1])
  = (Raise (TypeError "'config' is an invalid keyword argument for Template"),
     clean [web1] [SelectByProjectAlias 2%N "web" None]).
Proof. repeat split; reflexivity. Qed.

(** request_build with the alias occupied in the project: what the try
    body raises, the HTTPException 400 of line 44 or the AttributeError
    of the call at line 42, is caught by except Exception. *)
Lemma request_build_existing bs br project uid cm tbl tr existing :
  find (in_project_with_alias (Project.id project) (BuildRequest.alias br)) tbl
    = Some existing ->
  request_build bs br project uid (mkSession cm tbl [] tr)
  = (Raise (HTTPException 500 "Internal server error during template build"),
     mkSession cm tbl []
       (tr ++ [SelectByProjectAlias (Project.id project) (BuildRequest.alias br) None])).
Proof.
  intros H. unfold request_build, try_except, bind at 1 2, get_by_project_and_alias.
  rewrite query_first_eval, H.
  destruct (BuildRequest.force_rebuild br); reflexivity.
Qed.

(** C4: a build request without force_rebuild for a pair that is
    occupied leaves the table as it was, but what the caller gets is the
    500 of except Exception, which names neither the alias nor the
    project: the HTTPException 400 raised at line 44 does not leave the
    try block.  create_template called on the service does raise the
    ValueError that names both. *)
Theorem request_build_duplicate_is_internal_error :
  request_build accepting (BuildRequest.mk "web" [] None false) P1 12%N (get_db [web1])
  = (Raise (HTTPException 500 "Internal server error during template build"),
     clean [web1] [SelectByProjectAlias 1%N "web" None]) /\
  TemplateService.create_template accepting svc1 "web" [] None 12%N (get_db [web1])
  = (Raise (ValueError "Alias 'web' already exists in project 'Test Project 1'"),
     clean [web1] [SelectByProjectAlias 1%N "web" None]).
Proof. repeat split; reflexivity. Qed.

(** C5: a build request with force_rebuild for an occupied pair calls
    delete_template on the class with the session as self; self.db
    raises AttributeError, except Exception turns it into a 500, and
    the old row is still the one both lookups return. *)
Theorem request_build_force_rebuild_is_internal_error :
  request_build accepting (BuildRequest.mk "web" [] None true) P1 12%N (get_db [web1])
  = (Raise (HTTPException 500 "Internal server error during template build"),
     clean [web1] [SelectByProjectAlias 1%N "web" None]) /\
  fst (TemplateService.get_template svc1 10%N (get_db [web1])) = Return (Some web1) /\
  fst (TemplateService.get_by_alias svc1 "web" (get_db [web1])) = Return (Some web1) /\
  TemplateService.delete_template TemplateService.SessionObj 10%N (get_db [web1])
  = (Raise (AttributeError "'Session' object has no attribute 'db'"), get_db [web1]).
Proof. repeat split; reflexivity. Qed.



(** ** The UPDATE check *)

Lemma key_taken_ext r r' tbl :
  Template.id r = Template.id r' -> Template.key r = Template.key r' ->
  key_taken r tbl = key_taken r' tbl.
Proof.
  intros Hid Hk. unfold key_taken, Template.key in *. inversion Hk as [[Hp Ha]].
  induction tbl as [|x tbl IH]; simpl; [reflexivity|]. rewrite IH.
  unfold Template.same_id, Template.same_key. rewrite Hid, Hp, Ha. reflexivity.
Qed.

Lemma key_taken_alias_filter r tbl :
  key_taken r tbl
  = existsb (alias_filter (Template.project_id r) (Template.alias r)
                          (Some (Template.id r))) tbl.
Proof.
  unfold key_taken. induction tbl as [|x tbl IH]; simpl; [reflexivity|].
  rewrite IH. f_equal.
  unfold alias_filter, in_project_with_alias, Template.same_id, Template.same_key.
  simpl.
  rewrite (N.eqb_sym (Template.project_id x)), (String.eqb_sym (Template.alias x)),
    (N.eqb_sym (Template.id x)).
  apply andb_comm.
Qed.

Lemma key_taken_after_update r r0 tbl :
  Template.id r = Template.id r0 ->
  key_taken r (map (fun x => if Template.same_id r0 x then r0 else x) tbl)
  = key_taken r tbl.
Proof.
  intros Hid. unfold key_taken.
  induction tbl as [|x tbl IH]; simpl; [reflexivity|]. rewrite IH. f_equal.
  destruct (Template.same_id r0 x) eqn:E; [|reflexivity].
  unfold Template.same_id in *. rewrite Hid, E, N.eqb_refl. reflexivity.
Qed.

Lemma key_taken_self r tbl :
  pair_unique tbl -> In r tbl -> key_taken r tbl = false.
Proof.
  intros Hu Hin. unfold key_taken.
  destruct (existsb _ tbl) eqn:E; [|reflexivity].
  apply existsb_exists in E as [x [Hx E]].
  apply andb_true_iff in E as [Hid Hk]. apply same_key_eq in Hk.
  assert (r = x) by (eapply NoDup_map_inj; eassumption). subst x.
  unfold Template.same_id in Hid. rewrite N.eqb_refl in Hid. discriminate.
Qed.

Lemma update_accepted r tbl :
  key_taken r tbl = false ->
  apply_change (Update r) tbl
  = Some (map (fun x => if Template.same_id r x then r else x) tbl).
Proof. intros H. unfold apply_change. unfold key_taken in H. rewrite H. reflexivity. Qed.

Lemma new_alias_falsy alias template :
  truthy_str alias = false -> new_alias alias template = None.
Proof. intros H. unfold new_alias. rewrite H. destruct alias; reflexivity. Qed.

Lemma new_config_falsy config :
  truthy_config config = false -> new_config config = None.
Proof. intros H. unfold new_config. rewrite H. destruct config; reflexivity. Qed.

Lemma new_alias_some alias template a :
  new_alias alias template = Some a -> alias = Some a.
Proof.
  unfold new_alias. destruct alias as [b|]; [|discriminate].
  destruct (_ && _); [|discriminate]. intros H. inversion H. reflexivity.
Qed.

(** The pending UPDATEs pass the constraint when the new alias, if
    there is one, is free among the other rows of the project. *)
Lemma updates_accepted project_id alias config tbl template :
  pair_unique tbl ->
  find (TemplateService.by_id_in_project (Template.id template) project_id) tbl
    = Some template ->
  (forall a, new_alias alias template = Some a ->
     existsb (alias_filter project_id a (Some (Template.id template))) tbl = false) ->
  exists tbl', apply_changes (updates alias config template) tbl = Some tbl'.
Proof.
  intros Hu Hf Hfree. apply find_by_id in Hf as [Hin [_ Hp]].
  unfold updates, updated.
  destruct (new_alias alias template) as [a|] eqn:Ea;
    destruct (new_config config) as [c|]; simpl.
  - specialize (Hfree a eq_refl).
    assert (H1 : key_taken (Template.set_alias a template) tbl = false).
    { rewrite key_taken_alias_filter. simpl. rewrite Hp. exact Hfree. }
    rewrite (update_accepted _ _ H1).
    rewrite update_accepted; [eauto|].
    rewrite key_taken_after_update by reflexivity.
    rewrite <- H1. apply key_taken_ext; reflexivity.
  - specialize (Hfree a eq_refl).
    rewrite update_accepted; [eauto|].
    rewrite key_taken_alias_filter. simpl. rewrite Hp. exact Hfree.
  - rewrite update_accepted; [eauto|].
    rewrite (key_taken_ext _ template) by reflexivity.
    apply key_taken_self; assumption.
  - eauto.
Qed.

(** C7, as stated, fails for the empty alias: a rename to the empty
    string succeeds although another row of the project holds it.  The
    table is one the constraint accepts. *)
Lemma update_to_taken_empty_alias_succeeds :
  apply_change (Insert unnamed1) [web1] = Some [web1; unnamed1] /\
  is_return (fst (TemplateService.update_template svc1 10%N (Some "") None
                    (get_db [web1; unnamed1]))) = true /\
  existsb (alias_filter 1%N "" (Some 10%N)) [web1; unnamed1] = true.
Proof. repeat split; reflexivity. Qed.

(** C7, amended: for a non-empty alias B, update_template of T to B
    succeeds exactly when no row of the project other than T holds B;
    and an update of T to its current alias returns T, changes no row
    and makes no query but the lookup of T. *)
Theorem update_template_rename_iff_free svc tbl tr template B config :
  pair_uniqueb tbl = true ->
  find (TemplateService.by_id_in_project (Template.id template)
          (Project.id (TemplateService.project svc))) tbl = Some template ->
  B <> "" ->
  (is_return (fst (TemplateService.update_template svc (Template.id template)
                     (Some B) config (clean tbl tr))) = true
   <-> existsb (alias_filter (Project.id (TemplateService.project svc)) B
                             (Some (Template.id template))) tbl = false) /\
  TemplateService.update_template svc (Template.id template)
    (Some (Template.alias template)) None (clean tbl tr)
  = (Return template,
     clean tbl (tr ++ [SelectByIdProject (Template.id template)
                         (Project.id (TemplateService.project svc)); DbCommit])).
Proof.
  intros Hu Hf HB. apply pair_uniqueb_spec in Hu. split.
  - unfold clean. rewrite (update_found _ _ _ _ _ _ _ _ Hf).
    destruct (new_alias (Some B) template) as [a|] eqn:Ea.
    + apply new_alias_some in Ea as Ea'. inversion Ea'; subst a.
      destruct (existsb _ tbl) eqn:Et; simpl; [split; discriminate|].
      destruct (updates_accepted _ (Some B) config tbl template Hu Hf) as [tbl' ->].
      * intros a Ha. rewrite Ea in Ha. inversion Ha; subst. exact Et.
      * simpl. split; reflexivity.
    + destruct (updates_accepted _ (Some B) config tbl template Hu Hf) as [tbl' ->].
      * intros a Ha. rewrite Ea in Ha. discriminate.
      * simpl. split; [intros _|reflexivity].
        unfold new_alias, truthy_str in Ea.
        apply String.eqb_neq in HB. rewrite HB in Ea. simpl in Ea.
        destruct (String.eqb B (Template.alias template)) eqn:E; [|discriminate].
        apply String.eqb_eq in E. subst B.
        pose proof (find_by_id _ _ _ _ Hf) as [Hin [_ Hp]].
        rewrite <- Hp, <- key_taken_alias_filter.
        apply key_taken_self; assumption.
  - unfold clean. rewrite (update_found _ _ _ _ _ _ _ _ Hf).
    unfold updates, updated, update_selects, new_alias.
    rewrite String.eqb_refl, andb_false_r. reflexivity.
Qed.

Lemma update_template_rename_iff_free_witness :
  is_return (fst (TemplateService.update_template svc1 10%N (Some "api") None
                    (clean [web1; unnamed1; web2] []))) = true /\
  TemplateService.update_template svc1 10%N (Some "web") None
    (clean [web1; unnamed1; web2] [])
  = (Return web1, clean [web1; unnamed1; web2] [SelectByIdProject 10%N 1%N; DbCommit]).
Proof.
  assert (Hne : "api" <> "") by discriminate.
  destruct (update_template_rename_iff_free svc1 [web1; unnamed1; web2] [] web1
              "api" None eq_refl eq_refl Hne) as [Hiff Hsame].
  split; [apply Hiff; reflexivity|exact Hsame].
Defined.

(** C8, as stated, fails: create_template with the empty alias runs
    the pre-check query on the store, and what it raises is not a
    validation error: the ValueError of the pre-check when the project
    holds a row with the empty alias, the TypeError of the constructor
    when it holds none. *)
Lemma create_template_empty_alias_queries_the_store :
  TemplateService.create_template accepting svc1 "" [] None 12%N (get_db [unnamed1])
  = (Raise (ValueError "Alias '' already exists in project 'Test Project 1'"),
     clean [unnamed1] [SelectByProjectAlias 1%N "" None]) /\
  TemplateService.create_template accepting svc1 "" [] None 11%N (get_db [])
  = (Raise (TypeError "'config' is an invalid keyword argument for Template"),
     clean [] [SelectByProjectAlias 1%N "" None]).
Proof. split; reflexivity. Qed.

(** C8, amended: create_template does not validate the alias.  With
    the empty alias it makes one call on the session, the pre-check
    query, and leaves the tables as they were; it never raises a
    ValidationException; and if the project already has a row with the
    empty alias, the ValueError of the pre-check is what it raises. *)
Theorem create_template_does_not_validate_alias
  bs svc config dockerfile uid tbl tr :
  snd (TemplateService.create_template bs svc "" config dockerfile uid (clean tbl tr))
  = clean tbl (tr ++ [SelectByProjectAlias
                        (Project.id (TemplateService.project svc)) "" None]) /\
  (forall field msg,
     fst (TemplateService.create_template bs svc "" config dockerfile uid (clean tbl tr))
     <> Raise (ValidationException field msg)) /\
  (existsb (in_project_with_alias (Project.id (TemplateService.project svc)) "") tbl
     = true ->
   fst (TemplateService.create_template bs svc "" config dockerfile uid (clean tbl tr))
   = Raise (ValueError ("Alias '' already exists in project '"
                          ++ Project.name (TemplateService.project svc) ++ "'")%string)).
Proof.
  unfold clean.
  destruct (existsb (in_project_with_alias
                       (Project.id (TemplateService.project svc)) "") tbl) eqn:Hpre.
  - rewrite (create_template_eval_taken bs svc "" config dockerfile uid _ _ _ Hpre).
    repeat split. intros field msg. discriminate.
  - rewrite (create_template_eval_free bs svc "" config dockerfile uid _ _ _ Hpre).
    repeat split; [intros field msg|]; discriminate.
Qed.

Lemma create_template_does_not_validate_alias_witness :
  existsb (in_project_with_alias 1%N "") [web1; unnamed1] = true /\
  fst (TemplateService.create_template accepting svc1 "" [] None 12%N
         (clean [web1; unnamed1] []))
  = Raise (ValueError "Alias '' already exists in project 'Test Project 1'") /\
  snd (TemplateService.create_template accepting svc1 "" [] None 12%N
         (clean [web1; unnamed1] []))
  = clean [web1; unnamed1] [SelectByProjectAlias 1%N "" None].
Proof.
  split; [reflexivity|split].
  - exact (proj2 (proj2 (create_template_does_not_validate_alias
                           accepting svc1 [] None 12%N [web1; unnamed1] []))
             eq_refl).
  - exact (proj1 (create_template_does_not_validate_alias
                    accepting svc1 [] None 12%N [web1; unnamed1] [])).
Defined.






(** ** Further properties of the service and the endpoint *)

Lemma id_uniqueb_spec (tbl : Table) : id_uniqueb tbl = true <-> id_unique tbl.
Proof.
  unfold id_unique. induction tbl as [|r rest IH]; simpl.
  - split; [constructor | reflexivity].
  - rewrite andb_true_iff, negb_true_iff, IH. split.
    + intros [Hn Hr]. constructor; [|assumption].
      rewrite <- existsb_same_id. congruence.
    + intros H. inversion H as [|? ? Hn Hr]; subst. split; [|assumption].
      rewrite <- existsb_same_id in Hn. destruct (existsb _ rest); congruence.
Qed.

Lemma find_none_existsb {A} (p : A -> bool) (l : list A) :
  existsb p l = false -> find p l = None.
Proof.
  intros H. pose proof (find_existsb p l) as E. rewrite H in E.
  destruct (find p l); [discriminate|reflexivity].
Qed.

Lemma find_some_existsb {A} (p : A -> bool) (l : list A) :
  existsb p l = true -> exists x, find p l = Some x.
Proof.
  intros H. pose proof (find_existsb p l) as E. rewrite H in E.
  destruct (find p l) as [x|]; [eauto|discriminate].
Qed.

Lemma find_replaced (p : Template.t -> bool) (r : Template.t) (tbl : Table) :
  (forall x, In x tbl -> Template.same_id r x = false -> p x = false) ->
  existsb (Template.same_id r) tbl = true ->
  p r = true ->
  find p (map (fun x => if Template.same_id r x then r else x) tbl) = Some r.
Proof.
  intros Hoth Hex Hr. induction tbl as [|x tbl IH]; simpl in *; [discriminate|].
  destruct (Template.same_id r x) eqn:E.
  - rewrite Hr. reflexivity.
  - rewrite (Hoth x (or_introl eq_refl) E). apply IH; [|exact Hex].
    intros y Hy. apply Hoth. right. exact Hy.
Qed.

Lemma find_none_replaced (p : Template.t -> bool) (r : Template.t) (tbl : Table) :
  (forall x, In x tbl -> Template.same_id r x = false -> p x = false) ->
  p r = false ->
  find p (map (fun x => if Template.same_id r x then r else x) tbl) = None.
Proof.
  intros Hoth Hr. induction tbl as [|x tbl IH]; simpl in *; [reflexivity|].
  destruct (Template.same_id r x) eqn:E.
  - rewrite Hr. apply IH. intros y Hy. apply Hoth. right. exact Hy.
  - rewrite (Hoth x (or_introl eq_refl) E). apply IH.
    intros y Hy. apply Hoth. right. exact Hy.
Qed.

Lemma create_template_failure bs svc alias config dockerfile uid cm tbl tr e s' :
  TemplateService.create_template bs svc alias config dockerfile uid
    (mkSession cm tbl [] tr) = (Raise e, s') ->
  is_IntegrityError e = false /\ committed s' = cm.
Proof.
  intros H. unfold TemplateService.create_template, bind in H.
  rewrite check_eval in H.
  destruct (existsb _ tbl) eqn:Hpre.
  - inversion H; subst. simpl. auto.
  - rewrite persist_raises in H. inversion H; subst. simpl. auto.
Qed.

(** delete_template on a service instance answers whether the project
    has a row with the id.  When it has none, also when the id belongs
    to a row of another project, False is returned and nothing is
    written; when it has one, the committed table is the old one
    without the rows of that id. *)
Theorem delete_template_removes_only_that_id svc template_id tbl tr :
  (existsb (TemplateService.by_id_in_project template_id
              (Project.id (TemplateService.project svc))) tbl = false ->
   TemplateService.delete_template (TemplateService.ServiceObj svc) template_id
     (clean tbl tr)
   = (Return false,
      clean tbl (tr ++ [SelectByIdProject template_id
                          (Project.id (TemplateService.project svc))]))) /\
  (existsb (TemplateService.by_id_in_project template_id
              (Project.id (TemplateService.project svc))) tbl = true ->
   TemplateService.delete_template (TemplateService.ServiceObj svc) template_id
     (clean tbl tr)
   = (Return true,
      clean (filter (fun x => negb (N.eqb template_id (Template.id x))) tbl)
        (tr ++ [SelectByIdProject template_id
                  (Project.id (TemplateService.project svc));
                DbDelete template_id; DbCommit]))).
Proof.
  split; intros H.
  - apply find_none_existsb in H. unfold clean.
    rewrite (delete_not_found _ _ _ _ _ H). reflexivity.
  - apply find_some_existsb in H as [t Ht]. unfold clean at 1.
    rewrite (delete_found _ _ _ _ _ _ Ht).
    apply find_by_id in Ht as [_ [Hid _]].
    unfold Template.same_id. rewrite Hid. reflexivity.
Qed.

Lemma delete_template_removes_only_that_id_witness :
  TemplateService.delete_template (TemplateService.ServiceObj svc1) 20%N
    (clean [web1; web2] [])
  = (Return false, clean [web1; web2] [SelectByIdProject 20%N 1%N]) /\
  TemplateService.delete_template (TemplateService.ServiceObj svc1) 10%N
    (clean [web1; web2] [])
  = (Return true,
     clean [web2] [SelectByIdProject 10%N 1%N; DbDelete 10%N; DbCommit]).
Proof.
  split.
  - exact (proj1 (delete_template_removes_only_that_id svc1 20%N [web1; web2] [])
             eq_refl).
  - exact (proj2 (delete_template_removes_only_that_id svc1 10%N [web1; web2] [])
             eq_refl).
Defined.

(** A second delete_template of the same id returns False and leaves
    the committed table as the first one left it. *)
Theorem delete_template_again_returns_false svc template_id tbl tr :
  fst (TemplateService.delete_template (TemplateService.ServiceObj svc) template_id
         (snd (TemplateService.delete_template (TemplateService.ServiceObj svc)
                 template_id (clean tbl tr)))) = Return false /\
  committed
    (snd (TemplateService.delete_template (TemplateService.ServiceObj svc) template_id
            (snd (TemplateService.delete_template (TemplateService.ServiceObj svc)
                    template_id (clean tbl tr)))))
  = committed (snd (TemplateService.delete_template (TemplateService.ServiceObj svc)
                      template_id (clean tbl tr))).
Proof.
  destruct (existsb (TemplateService.by_id_in_project template_id
                       (Project.id (TemplateService.project svc))) tbl) eqn:H.
  - apply find_some_existsb in H as [t Ht]. unfold clean at 1 2 3.
    rewrite (delete_found _ _ _ _ _ _ Ht). simpl. unfold clean.
    rewrite delete_not_found; [split; reflexivity|].
    apply find_none_existsb.
    apply find_by_id in Ht as [_ [Hid _]].
    destruct (existsb _ (filter _ tbl)) eqn:E; [|reflexivity].
    apply existsb_exists in E as [x [Hx Hp]].
    apply filter_In in Hx as [_ Hx].
    unfold TemplateService.by_id_in_project in Hp.
    apply andb_true_iff in Hp as [Hp _].
    unfold Template.same_id in Hx. rewrite Hid, N.eqb_sym, Hp in Hx. discriminate.
  - apply find_none_existsb in H. unfold clean.
    rewrite (delete_not_found _ _ _ _ _ H). simpl.
    rewrite (delete_not_found _ _ _ _ _ H). split; reflexivity.
Qed.

Lemma existsb_snoc {A} (p : A -> bool) (l : list A) (x : A) :
  existsb p (l ++ [x]) = existsb p l || p x.
Proof. rewrite existsb_app. simpl. rewrite orb_false_r. reflexivity. Qed.

(** create_template on a session with nothing pending makes one query,
    the pre-check, and raises: the ValueError that names alias and
    project when the project holds the alias, the TypeError of the
    constructor when it does not.  No row is added or changed. *)
Theorem create_template_outcome bs svc alias config dockerfile uid tbl tr :
  TemplateService.create_template bs svc alias config dockerfile uid (clean tbl tr)
  = (Raise (if existsb (in_project_with_alias
                          (Project.id (TemplateService.project svc)) alias) tbl
            then ValueError ("Alias '" ++ alias ++ "' already exists in project '"
                               ++ Project.name (TemplateService.project svc) ++ "'")%string
            else TypeError "'config' is an invalid keyword argument for Template"),
     clean tbl (tr ++ [SelectByProjectAlias
                         (Project.id (TemplateService.project svc)) alias None])).
Proof.
  unfold clean.
  destruct (existsb (in_project_with_alias
                       (Project.id (TemplateService.project svc)) alias) tbl) eqn:Hpre.
  - apply create_template_eval_taken. exact Hpre.
  - apply create_template_eval_free. exact Hpre.
Qed.

(** What get_template and get_by_alias return is a row of the table
    that belongs to the service's project and has the id, or the alias,
    asked for; neither writes. *)
Theorem lookups_stay_in_project svc tbl tr :
  (forall template_id r,
     fst (TemplateService.get_template svc template_id (clean tbl tr))
       = Return (Some r) ->
     In r tbl /\ Template.id r = template_id /\
     Template.project_id r = Project.id (TemplateService.project svc)) /\
  (forall alias r,
     fst (TemplateService.get_by_alias svc alias (clean tbl tr)) = Return (Some r) ->
     In r tbl /\ Template.alias r = alias /\
     Template.project_id r = Project.id (TemplateService.project svc)) /\
  (forall template_id,
     committed (snd (TemplateService.get_template svc template_id (clean tbl tr)))
       = tbl /\
     rows (snd (TemplateService.get_template svc template_id (clean tbl tr))) = tbl) /\
  (forall alias,
     committed (snd (TemplateService.get_by_alias svc alias (clean tbl tr))) = tbl /\
     rows (snd (TemplateService.get_by_alias svc alias (clean tbl tr))) = tbl).
Proof.
  unfold TemplateService.get_template, TemplateService.get_by_alias,
    get_by_project_and_alias, clean.
  repeat split; try (rewrite query_first_eval; reflexivity);
    rewrite query_first_eval in H; simpl in H; inversion H as [Hf];
    try (apply find_by_id in Hf; apply Hf);
    apply find_some in Hf as [Hin Hp]; unfold in_project_with_alias in Hp;
    apply andb_true_iff in Hp as [Hp Ha];
    [exact Hin | apply String.eqb_eq; exact Ha | apply N.eqb_eq; exact Hp].
Qed.

Lemma lookups_stay_in_project_witness :
  In web1 [web2; web1] /\ Template.alias web1 = "web" /\
  Template.project_id web1 = 1%N.
Proof.
  exact (proj1 (proj2 (lookups_stay_in_project svc1 [web2; web1] []))
           "web" web1 eq_refl).
Defined.

(** alias_exists_in_project without exclude_id is true exactly when
    get_by_project_and_alias finds a row; with the id of that row as
    exclude_id it is false, since no second row holds the pair. *)
Theorem alias_exists_agrees_with_lookup project_id alias tbl tr :
  (fst (alias_exists_in_project project_id alias None (clean tbl tr)) = Return true
   <-> exists r, fst (get_by_project_and_alias project_id alias (clean tbl tr))
                 = Return (Some r)) /\
  (pair_uniqueb tbl = true ->
   forall r,
     fst (get_by_project_and_alias project_id alias (clean tbl tr)) = Return (Some r) ->
     fst (alias_exists_in_project project_id alias (Some (Template.id r))
            (clean tbl tr)) = Return false).
Proof.
  unfold clean, get_by_project_and_alias.
  rewrite query_first_eval. split.
  - rewrite alias_exists_eval, alias_filter_no_exclude. cbn [fst].
    rewrite <- (find_existsb (in_project_with_alias project_id alias) tbl).
    destruct (find _ tbl) as [x|]; split; intros H.
    + eauto.
    + reflexivity.
    + discriminate.
    + destruct H as [r H]. discriminate.
  - intros Hu r H. cbn [fst] in H. inversion H as [Hf].
    apply pair_uniqueb_spec in Hu. rewrite alias_exists_eval. cbn [fst].
    apply find_some in Hf as [Hin Hp]. unfold in_project_with_alias in Hp.
    apply andb_true_iff in Hp as [Hp Ha].
    apply N.eqb_eq in Hp. apply String.eqb_eq in Ha. subst project_id alias.
    rewrite <- key_taken_alias_filter. f_equal.
    apply key_taken_self; assumption.
Qed.

Lemma alias_exists_agrees_with_lookup_witness :
  fst (alias_exists_in_project 1%N "web" (Some 10%N) (clean [web1; web2] []))
  = Return false.
Proof.
  exact (proj2 (alias_exists_agrees_with_lookup 1%N "web" [web1; web2] [])
           eq_refl web1 eq_refl).
Defined.

Lemma not_in_project svc r tbl :
  id_unique tbl -> In r tbl ->
  Template.project_id r <> Project.id (TemplateService.project svc) ->
  find (TemplateService.by_id_in_project (Template.id r)
          (Project.id (TemplateService.project svc))) tbl = None.
Proof.
  intros Hu Hin Hne.
  destruct (find _ tbl) as [x|] eqn:Hf; [|reflexivity].
  apply find_by_id in Hf as [Hx [Hid Hp]].
  assert (x = r) by (eapply NoDup_map_inj; eassumption).
  subst x. contradiction.
Qed.

(** A row of another project is out of reach of the service: with its
    id get_template returns None, update_template raises the not-found
    ValueError and delete_template returns False, and the table stays
    as it was. *)
Theorem other_projects_rows_are_out_of_reach svc r tbl tr alias config :
  id_uniqueb tbl = true ->
  In r tbl ->
  Template.project_id r <> Project.id (TemplateService.project svc) ->
  TemplateService.get_template svc (Template.id r) (clean tbl tr)
  = (Return None,
     clean tbl (tr ++ [SelectByIdProject (Template.id r)
                         (Project.id (TemplateService.project svc))])) /\
  TemplateService.update_template svc (Template.id r) alias config (clean tbl tr)
  = (Raise (ValueError "Template not found in project"),
     clean tbl (tr ++ [SelectByIdProject (Template.id r)
                         (Project.id (TemplateService.project svc))])) /\
  TemplateService.delete_template (TemplateService.ServiceObj svc) (Template.id r)
    (clean tbl tr)
  = (Return false,
     clean tbl (tr ++ [SelectByIdProject (Template.id r)
                         (Project.id (TemplateService.project svc))])).
Proof.
  intros Hu Hin Hne. apply id_uniqueb_spec in Hu.
  pose proof (not_in_project svc r tbl Hu Hin Hne) as Hf.
  unfold clean. split; [|split].
  - unfold TemplateService.get_template. rewrite query_first_eval, Hf. reflexivity.
  - apply update_not_found. exact Hf.
  - apply delete_not_found. exact Hf.
Qed.

Lemma other_projects_rows_are_out_of_reach_witness :
  TemplateService.update_template svc1 20%N (Some "api") None (clean [web1; web2] [])
  = (Raise (ValueError "Template not found in project"),
     clean [web1; web2] [SelectByIdProject 20%N 1%N]).
Proof.
  assert (Hne : Template.project_id web2 <> Project.id (TemplateService.project svc1))
    by discriminate.
  exact (proj1 (proj2 (other_projects_rows_are_out_of_reach svc1 web2 [web1; web2] []
                         (Some "api") None eq_refl
                         (or_intror (or_introl eq_refl)) Hne))).
Defined.

(** After a rename that succeeds, the service finds the row under the
    new alias and under its id, with the other columns as before, and
    finds nothing under the old alias. *)
Theorem rename_then_lookup svc tbl tr template B :
  pair_uniqueb tbl = true ->
  find (TemplateService.by_id_in_project (Template.id template)
          (Project.id (TemplateService.project svc))) tbl = Some template ->
  B <> "" ->
  B <> Template.alias template ->
  existsb (alias_filter (Project.id (TemplateService.project svc)) B
                        (Some (Template.id template))) tbl = false ->
  TemplateService.update_template svc (Template.id template) (Some B) None
    (clean tbl tr)
  = (Return (Template.set_alias B template),
     clean (map (fun x => if Template.same_id (Template.set_alias B template) x
                          then Template.set_alias B template else x) tbl)
       (tr ++ [SelectByIdProject (Template.id template)
                 (Project.id (TemplateService.project svc));
               SelectByProjectAlias (Project.id (TemplateService.project svc)) B
                 (Some (Template.id template));
               DbCommit])) /\
  fst (TemplateService.get_by_alias svc B
         (snd (TemplateService.update_template svc (Template.id template) (Some B) None
                 (clean tbl tr))))
  = Return (Some (Template.set_alias B template)) /\
  fst (TemplateService.get_template svc (Template.id template)
         (snd (TemplateService.update_template svc (Template.id template) (Some B) None
                 (clean tbl tr))))
  = Return (Some (Template.set_alias B template)) /\
  fst (TemplateService.get_by_alias svc (Template.alias template)
         (snd (TemplateService.update_template svc (Template.id template) (Some B) None
                 (clean tbl tr))))
  = Return None.
Proof.
  intros Hu Hf HB Hne Hfree. apply pair_uniqueb_spec in Hu.
  pose proof (find_by_id _ _ _ _ Hf) as [Hin [_ Hp]].
  assert (Hna : new_alias (Some B) template = Some B).
  { unfold new_alias, truthy_str.
    apply String.eqb_neq in HB, Hne. rewrite HB, Hne. reflexivity. }
  assert (Hk : key_taken (Template.set_alias B template) tbl = false).
  { rewrite key_taken_alias_filter. simpl. rewrite Hp. exact Hfree. }
  assert (Hrun :
    TemplateService.update_template svc (Template.id template) (Some B) None
      (clean tbl tr)
    = (Return (Template.set_alias B template),
       clean (map (fun x => if Template.same_id (Template.set_alias B template) x
                            then Template.set_alias B template else x) tbl)
         (tr ++ [SelectByIdProject (Template.id template)
                   (Project.id (TemplateService.project svc));
                 SelectByProjectAlias (Project.id (TemplateService.project svc)) B
                   (Some (Template.id template));
                 DbCommit]))).
  { unfold clean. rewrite (update_found _ _ _ _ _ _ _ _ Hf).
    unfold updates, updated, update_selects. rewrite Hna, Hfree.
    cbn [new_config app apply_changes].
    rewrite (update_accepted _ _ Hk). reflexivity. }
  assert (Hex : existsb (Template.same_id (Template.set_alias B template)) tbl = true).
  { apply existsb_exists. exists template. split; [exact Hin|].
    unfold Template.same_id. simpl. apply N.eqb_refl. }
  split; [exact Hrun|]. rewrite Hrun. cbn [snd].
  unfold TemplateService.get_by_alias, get_by_project_and_alias,
    TemplateService.get_template, clean.
  rewrite !query_first_eval. cbn [fst].
  split; [|split].
  - rewrite find_replaced; [reflexivity| |exact Hex|].
    + intros x Hx Hsame.
      destruct (in_project_with_alias _ B x) eqn:E; [|reflexivity].
      assert (existsb (alias_filter (Project.id (TemplateService.project svc)) B
                         (Some (Template.id template))) tbl = true); [|congruence].
      apply existsb_exists. exists x. split; [exact Hx|].
      unfold alias_filter. rewrite E. simpl.
      unfold Template.same_id in Hsame. simpl in Hsame.
      rewrite N.eqb_sym, Hsame. reflexivity.
    + unfold in_project_with_alias. simpl.
      rewrite Hp, N.eqb_refl, String.eqb_refl. reflexivity.
  - rewrite find_replaced; [reflexivity| |exact Hex|].
    + intros x Hx Hsame. unfold TemplateService.by_id_in_project.
      unfold Template.same_id in Hsame. simpl in Hsame.
      rewrite N.eqb_sym, Hsame. reflexivity.
    + unfold TemplateService.by_id_in_project. simpl.
      rewrite Hp, !N.eqb_refl. reflexivity.
  - rewrite find_none_replaced; [reflexivity| |].
    + intros x Hx Hsame.
      destruct (in_project_with_alias _ (Template.alias template) x) eqn:E;
        [|reflexivity].
      unfold in_project_with_alias in E. apply andb_true_iff in E as [E1 E2].
      apply N.eqb_eq in E1. apply String.eqb_eq in E2.
      assert (x = template).
      { apply (NoDup_map_inj Template.key tbl); try assumption.
        unfold Template.key. congruence. }
      subst x. unfold Template.same_id in Hsame. simpl in Hsame.
      rewrite N.eqb_refl in Hsame. discriminate.
    + unfold in_project_with_alias. simpl.
      apply String.eqb_neq in Hne. rewrite Hne. apply andb_false_r.
Qed.

Lemma rename_then_lookup_witness :
  fst (TemplateService.get_by_alias svc1 "api"
         (snd (TemplateService.update_template svc1 10%N (Some "api") None
                 (clean [web1; web2] []))))
  = Return (Some (Template.mk 10%N "api" 1%N [] None)) /\
  fst (TemplateService.get_by_alias svc1 "web"
         (snd (TemplateService.update_template svc1 10%N (Some "api") None
                 (clean [web1; web2] []))))
  = Return None.
Proof.
  assert (H1 : "api" <> "") by discriminate.
  assert (H2 : "api" <> Template.alias web1) by discriminate.
  destruct (rename_then_lookup svc1 [web1; web2] [] web1 "api"
              eq_refl eq_refl H1 H2 eq_refl) as [_ [Ha [_ Hb]]].
  split; [exact Ha|exact Hb].
Defined.

(** request_build never answers with a BuildResponse: on a session
    with nothing pending it raises the HTTPException 500 of except
    Exception, after its own lookup when the project holds the alias,
    after the lookup and the pre-check of create_template when it does
    not, and the tables are as they were. *)
Theorem request_build_never_answers bs br project uid tbl tr :
  request_build bs br project uid (clean tbl tr)
  = (Raise (HTTPException 500 "Internal server error during template build"),
     clean tbl
       (tr ++ SelectByProjectAlias (Project.id project) (BuildRequest.alias br) None
           :: (if existsb (in_project_with_alias (Project.id project)
                                                 (BuildRequest.alias br)) tbl
               then []
               else [SelectByProjectAlias (Project.id project)
                       (BuildRequest.alias br) None]))).
Proof.
  unfold clean.
  destruct (existsb (in_project_with_alias (Project.id project) (BuildRequest.alias br))
                    tbl) eqn:Hpre.
  - destruct (find_some_existsb _ _ Hpre) as [existing Hf].
    apply (request_build_existing _ _ _ _ _ _ _ _ Hf).
  - unfold request_build, try_except, bind at 1 2, get_by_project_and_alias.
    rewrite query_first_eval, (find_none_existsb _ _ Hpre).
    unfold ret at 1. unfold bind.
    rewrite (create_template_eval_free bs (TemplateService.mk project) _ _ _ _ _ _ _
               Hpre).
    cbn. rewrite <- app_assoc. reflexivity.
Qed.

(** Whatever makes request_build fail, the caller gets the
    HTTPException 500 of except Exception; the 400 of except
    IntegrityError is never the answer, and the committed table is the
    one from before the request. *)
Theorem request_build_fails_only_with_500 bs br project uid tbl tr e s' :
  request_build bs br project uid (clean tbl tr) = (Raise e, s') ->
  e = HTTPException 500 "Internal server error during template build" /\
  committed s' = tbl.
Proof.
  unfold clean. intros H.
  destruct (find (in_project_with_alias (Project.id project) (BuildRequest.alias br))
                 tbl) as [existing|] eqn:Hf.
  - rewrite (request_build_existing _ _ _ _ _ _ _ _ Hf) in H.
    inversion H; subst. split; reflexivity.
  - unfold request_build, try_except, bind at 1 2, get_by_project_and_alias in H.
    rewrite query_first_eval, Hf in H. unfold ret at 1 in H. unfold bind in H.
    destruct (TemplateService.create_template bs (TemplateService.mk project)
                (BuildRequest.alias br) (BuildRequest.config br)
                (BuildRequest.dockerfile_content br) uid
                (mkSession tbl tbl []
                   (tr ++ [SelectByProjectAlias (Project.id project)
                             (BuildRequest.alias br) None])))
      as [[t|e0] s0] eqn:Hc.
    + unfold ret in H. discriminate.
    + apply create_template_failure in Hc as [Hi Hcm].
      rewrite Hi in H. unfold raise in H. inversion H; subst. split; reflexivity.
Qed.

Lemma request_build_fails_only_with_500_witness :
  HTTPException 500 "Internal server error during template build"
    = HTTPException 500 "Internal server error during template build" /\
  committed (snd (request_build (refusing IntegrityError)
                    (BuildRequest.mk "api" [] None false) P1 12%N
                    (clean [web1] []))) = [web1].
Proof.
  exact (request_build_fails_only_with_500 (refusing IntegrityError)
           (BuildRequest.mk "api" [] None false) P1 12%N [web1] [] _ _ eq_refl).
Defined.

Lemma update_keeps_others r tbl x :
  In x tbl -> Template.id x <> Template.id r ->
  In x (map (fun y => if Template.same_id r y then r else y) tbl).
Proof.
  intros Hin Hne. apply in_map_iff. exists x. split; [|exact Hin].
  destruct (Template.same_id r x) eqn:E; [|reflexivity].
  apply same_id_eq in E. congruence.
Qed.

Lemma updates_frame alias config template tbl tbl' :
  apply_changes (updates alias config template) tbl = Some tbl' ->
  map Template.id tbl' = map Template.id tbl /\
  forall x, In x tbl -> Template.id x <> Template.id template -> In x tbl'.
Proof.
  unfold updates, updated.
  destruct (new_alias alias template) as [a|];
    destruct (new_config config) as [c|]; simpl; intros H;
    repeat match type of H with
    | context [apply_change (Update ?r) ?t] =>
        let E := fresh "E" in
        destruct (key_taken r t) eqn:E;
        [unfold apply_change, key_taken in *; rewrite E in H; discriminate
        |rewrite (update_accepted r t E) in H]
    end; inversion H; subst; rewrite ?update_map_id; split; auto;
    intros x Hx Hne; repeat apply update_keeps_others; auto.
Qed.

(** update_template, whether it succeeds or raises, adds no row and
    removes none, and leaves every row with another id as it was. *)
Theorem update_template_touches_one_row svc template_id alias config tbl tr :
  map Template.id
    (rows (snd (TemplateService.update_template svc template_id alias config
                  (clean tbl tr))))
  = map Template.id tbl /\
  forall x, In x tbl -> Template.id x <> template_id ->
    In x (rows (snd (TemplateService.update_template svc template_id alias config
                       (clean tbl tr)))).
Proof.
  unfold clean.
  destruct (find (TemplateService.by_id_in_project template_id
                    (Project.id (TemplateService.project svc))) tbl)
    as [template|] eqn:Hf.
  - pose proof (find_by_id _ _ _ _ Hf) as [_ [Hid _]].
    rewrite (update_found _ _ _ _ _ _ _ _ Hf).
    destruct (new_alias alias template) as [a|];
      [destruct (existsb _ tbl); [simpl; auto|]|];
      destruct (apply_changes (updates alias config template) tbl) as [tbl'|] eqn:E;
      simpl; auto; apply updates_frame in E; rewrite <- Hid; exact E.
  - rewrite (update_not_found _ _ _ _ _ _ _ Hf). simpl. auto.
Qed.

Lemma update_template_touches_one_row_witness :
  In web2 (rows (snd (TemplateService.update_template svc1 10%N (Some "api")
                        (Some [("base_image", "alpine")]) (clean [web1; web2] [])))).
Proof.
  assert (Hne : Template.id web2 <> 10%N) by discriminate.
  exact (proj2 (update_template_touches_one_row svc1 10%N (Some "api")
                  (Some [("base_image", "alpine")]) [web1; web2] [])
           web2 (or_intror (or_introl eq_refl)) Hne).
Defined.

(** ** BuildException and its message *)

Lemma prefix_empty (s : string) : String.prefix "" s = true.
Proof. destruct s; reflexivity. Qed.

Lemma prefix_self_app (n b : string) : String.prefix n (n ++ b) = true.
Proof.
  induction n as [|c n IH]; simpl; [apply prefix_empty|].
  destruct (Ascii.ascii_dec c c); [exact IH|congruence].
Qed.

Lemma prefix_app_l (n a b : string) :
  String.prefix n a = true -> String.prefix n (a ++ b) = true.
Proof.
  revert a. induction n as [|c n IH]; intros a H; [apply prefix_empty|].
  destruct a as [|d a]; simpl in *; [discriminate|].
  destruct (Ascii.ascii_dec c d); [apply IH; exact H|discriminate].
Qed.

Lemma prefix_contains (n s : string) :
  String.prefix n s = true -> Exceptions.contains n s = true.
Proof. intros H. destruct s; cbn [Exceptions.contains]; rewrite H; reflexivity. Qed.

Lemma contains_app_r (n a b : string) :
  Exceptions.contains n b = true -> Exceptions.contains n (a ++ b) = true.
Proof.
  intros H. induction a as [|c a IH]; simpl; [exact H|].
  rewrite IH. apply orb_true_r.
Qed.

Lemma contains_app_l (n a b : string) :
  Exceptions.contains n a = true -> Exceptions.contains n (a ++ b) = true.
Proof.
  induction a as [|c a IH]; intros H.
  - simpl in H. rewrite orb_false_r in H.
    destruct n; [|discriminate]. apply prefix_contains, prefix_empty.
  - change (Exceptions.contains n (String c a))
      with (String.prefix n (String c a) || Exceptions.contains n a) in H.
    change (Exceptions.contains n (String c a ++ b))
      with (String.prefix n (String c a ++ b) || Exceptions.contains n (a ++ b)).
    apply orb_true_iff in H as [H|H].
    + rewrite (prefix_app_l _ _ b H). reflexivity.
    + rewrite (IH H). apply orb_true_r.
Qed.

Lemma prefix_app_inv (a b x : string) :
  String.prefix (a ++ b) x = true ->
  exists y, x = (a ++ y)%string /\ String.prefix b y = true.
Proof.
  revert x. induction a as [|c a IH]; intros x H.
  - exists x. split; [reflexivity|exact H].
  - destruct x as [|d x]; simpl in H; [discriminate|].
    destruct (Ascii.ascii_dec c d) as [->|]; [|discriminate].
    destruct (IH x H) as [y [-> Hy]]. exists y. split; [reflexivity|exact Hy].
Qed.

Lemma contains_needle_suffix (a b x : string) :
  Exceptions.contains (a ++ b) x = true -> Exceptions.contains b x = true.
Proof.
  induction x as [|c x IH]; intros H.
  - cbn [Exceptions.contains] in H. rewrite orb_false_r in H.
    apply prefix_app_inv in H as [y [Hx Hy]].
    rewrite Hx. apply contains_app_r, prefix_contains, Hy.
  - change (Exceptions.contains (a ++ b) (String c x))
      with (String.prefix (a ++ b) (String c x) || Exceptions.contains (a ++ b) x) in H.
    apply orb_true_iff in H as [H|H].
    + apply prefix_app_inv in H as [y [Hx Hy]].
      rewrite Hx. apply contains_app_r, prefix_contains, Hy.
    + change (Exceptions.contains b (String c x))
        with (String.prefix b (String c x) || Exceptions.contains b x).
      rewrite (IH H). apply orb_true_r.
Qed.

Lemma replace_hits (old new s : string) :
  old <> "" ->
  Exceptions.contains old s = true ->
  Exceptions.contains new (Exceptions.replace old new s) = true.
Proof.
  intros Hold. unfold Exceptions.replace. induction s as [|c s IH]; intros H.
  - simpl in H. rewrite orb_false_r in H. destruct old; [congruence|discriminate].
  - change (Exceptions.contains old (String c s))
      with (String.prefix old (String c s) || Exceptions.contains old s) in H.
    cbn [Exceptions.replace_from].
    destruct (String.prefix old (String c s)) eqn:Hp.
    + apply prefix_contains, prefix_self_app.
    + simpl in H.
      change (Exceptions.contains new (String c (Exceptions.replace_from 0 old new s)))
        with (String.prefix new (String c (Exceptions.replace_from 0 old new s))
              || Exceptions.contains new (Exceptions.replace_from 0 old new s)).
      rewrite (IH H). apply orb_true_r.
Qed.

Lemma replace_misses (old new s : string) :
  Exceptions.contains old s = false -> Exceptions.replace old new s = s.
Proof.
  unfold Exceptions.replace. induction s as [|c s IH]; intros H; [reflexivity|].
  change (Exceptions.contains old (String c s))
    with (String.prefix old (String c s) || Exceptions.contains old s) in H.
  apply orb_false_iff in H as [Hp Hc].
  cbn [Exceptions.replace_from]. rewrite Hp, (IH Hc). reflexivity.
Qed.

(** A message that says an alias is already taken and names no
    project leaves BuildException naming the caller's project. *)
Theorem build_exception_adds_project_context message status_code details :
  Exceptions.contains "is already taken" message = true ->
  Exceptions.contains "project" message = false ->
  Exceptions.contains "is already taken in your project"
    (Exceptions.message (Exceptions.BuildException message status_code details))
    = true /\
  Exceptions.contains "project"
    (Exceptions.message (Exceptions.BuildException message status_code details))
    = true.
Proof.
  intros Htaken Hproj.
  assert (Hcond : Exceptions.contains "already taken" message = true).
  { apply (contains_needle_suffix "is " "already taken"). exact Htaken. }
  assert (Hmsg : Exceptions.message
                   (Exceptions.BuildException message status_code details)
                 = Exceptions.replace "is already taken"
                     "is already taken in your project" message).
  { unfold Exceptions.BuildException, Exceptions.E2BException_init,
      Exceptions.build_message.
    cbn [Exceptions.message]. rewrite Hcond, Hproj. reflexivity. }
  rewrite Hmsg.
  assert (H : Exceptions.contains "is already taken in your project"
                (Exceptions.replace "is already taken"
                   "is already taken in your project" message) = true).
  { apply replace_hits; [discriminate|exact Htaken]. }
  split; [exact H|].
  apply (contains_needle_suffix "is already taken in your " "project"). exact H.
Qed.

Lemma build_exception_adds_project_context_witness :
  Exceptions.contains "project"
    (Exceptions.message
       (Exceptions.BuildException "Alias 'web' is already taken" None None)) = true.
Proof.
  exact (proj2 (build_exception_adds_project_context
                  "Alias 'web' is already taken" None None eq_refl eq_refl)).
Defined.

(** The message of a BuildException goes through a second
    BuildException unchanged: a message is given the project context at
    most once. *)
Theorem build_exception_message_is_stable message sc1 d1 sc2 d2 :
  Exceptions.message
    (Exceptions.BuildException
       (Exceptions.message (Exceptions.BuildException message sc1 d1)) sc2 d2)
  = Exceptions.message (Exceptions.BuildException message sc1 d1).
Proof.
  unfold Exceptions.BuildException, Exceptions.E2BException_init.
  cbn [Exceptions.message].
  destruct (Exceptions.contains "already taken" message
            && negb (Exceptions.contains "project" message)) eqn:Hc.
  - assert (Hm : Exceptions.build_message message
                 = Exceptions.replace "is already taken"
                     "is already taken in your project" message)
      by (unfold Exceptions.build_message; rewrite Hc; reflexivity).
    destruct (Exceptions.contains "is already taken" message) eqn:Ht.
    + rewrite Hm. unfold Exceptions.build_message.
      assert (H : Exceptions.contains "project"
                    (Exceptions.replace "is already taken"
                       "is already taken in your project" message) = true).
      { apply (contains_needle_suffix "is already taken in your " "project").
        apply replace_hits; [discriminate|exact Ht]. }
      rewrite H, andb_false_r. reflexivity.
    + rewrite (replace_misses _ _ _ Ht) in Hm. rewrite Hm. exact Hm.
  - assert (Hm : Exceptions.build_message message = message)
      by (unfold Exceptions.build_message; rewrite Hc; reflexivity).
    rewrite Hm. exact Hm.
Qed.

(** The message build_template raises names a project, so
    BuildException keeps it as it is. *)
Lemma taken_message_kept (a p : string) sc d :
  Exceptions.BuildException
    ("Alias '" ++ a ++ "' is already taken in project '" ++ p ++ "'")%string sc d
  = Exceptions.mk
      ("Alias '" ++ a ++ "' is already taken in project '" ++ p ++ "'")%string
      (match sc with Some c => c | None => 400 end)
      (match d with Some ((_ :: _) as x) => x | _ => [] end).
Proof.
  unfold Exceptions.BuildException, Exceptions.E2BException_init,
    Exceptions.build_message.
  assert (H : Exceptions.contains "project"
                ("Alias '" ++ a ++ "' is already taken in project '" ++ p ++ "'")%string
              = true).
  { apply contains_app_r, contains_app_r, contains_app_l. reflexivity. }
  rewrite H, andb_false_r. reflexivity.
Qed.

(** ** build_template of template_endpoints.py *)

Lemma endpoint_insert_some uid alias project_id dockerfile now tbl r tbl' :
  Endpoints.insert uid alias project_id dockerfile now tbl = Some (r, tbl') ->
  exists a,
    alias = Some a /\
    r = Endpoints.mkTemplate uid a project_id dockerfile now None /\
    tbl' = tbl ++ [r] /\
    existsb (fun x => String.eqb (Endpoints.id x) uid) tbl = false /\
    existsb (Endpoints.alias_in_project alias project_id) tbl = false.
Proof.
  unfold Endpoints.insert. destruct alias as [a|]; [|discriminate].
  destruct (existsb (fun x => String.eqb (Endpoints.id x) uid) tbl) eqn:Hi;
    [discriminate|].
  destruct (existsb (Endpoints.alias_in_project (Some a) project_id) tbl) eqn:Hk;
    [discriminate|].
  simpl. intros H. inversion H; subst. exists a. auto.
Qed.

(** Every API key resolves to the one project default_project: once a
    build_template for an alias has succeeded, a build_template for the
    same alias fails with the BuildException 400 that names
    default_project, whatever the headers of the two requests, and the
    table is not changed. *)
Theorem build_template_one_project_for_every_key
  td1 td2 req1 req2 uid1 uid2 now1 now2 tbl a r tbl1 :
  Endpoints.dict_get "alias" td1 = Some a ->
  Endpoints.dict_get "alias" td2 = Some a ->
  Endpoints.build_template td1 req1 uid1 now1 tbl = (Endpoints.Ok r, tbl1) ->
  Endpoints.build_template td2 req2 uid2 now2 tbl1
  = (Endpoints.Failed
       (Endpoints.RaiseBuildException
          (Exceptions.mk
             ("Alias '" ++ a ++ "' is already taken in project 'default_project'")%string
             400 [])),
     tbl1).
Proof.
  intros Ha1 Ha2 H. unfold Endpoints.build_template in *.
  rewrite Ha1 in H. rewrite Ha2.
  unfold Endpoints.get_project_id_from_api_key in *.
  destruct (find _ tbl); [discriminate|].
  destruct (Endpoints.insert uid1 (Some a) "default_project" _ now1 tbl)
    as [[row tbl']|] eqn:Hins; [|discriminate].
  inversion H; subst.
  apply endpoint_insert_some in Hins as [a0 [Ea [Hrow [Htbl _]]]].
  inversion Ea; subst a0. subst tbl1.
  destruct (find_some_existsb
              (Endpoints.alias_in_project (Some a) "default_project") (tbl ++ [row]))
    as [x Hx].
  { rewrite existsb_snoc. subst row. unfold Endpoints.alias_in_project at 2. simpl.
    rewrite String.eqb_refl. apply orb_true_r. }
  rewrite Hx. cbn [Endpoints.fmt]. rewrite taken_message_kept. reflexivity.
Qed.

Lemma build_template_one_project_for_every_key_witness :
  Endpoints.build_template [("alias", "web"); ("dockerfile", "FROM alpine")]
    (Endpoints.mkRequest [("X-API-Key", "key-of-project-2")]) "u2" 6%N
    [Endpoints.mkTemplate "u1" "web" "default_project" "" 5%N None]
  = (Endpoints.Failed
       (Endpoints.RaiseBuildException
          (Exceptions.mk "Alias 'web' is already taken in project 'default_project'"
                         400 [])),
     [Endpoints.mkTemplate "u1" "web" "default_project" "" 5%N None]).
Proof.
  exact (build_template_one_project_for_every_key
           [("alias", "web")] [("alias", "web"); ("dockerfile", "FROM alpine")]
           (Endpoints.mkRequest [("X-API-Key", "key-of-project-1")])
           (Endpoints.mkRequest [("X-API-Key", "key-of-project-2")])
           "u1" "u2" 5%N 6%N [] "web" _ _ eq_refl eq_refl eq_refl).
Defined.

Lemma find_no_alias project_id (tbl : list Endpoints.Template) :
  find (Endpoints.alias_in_project None project_id) tbl = None.
Proof. induction tbl as [|x tbl IH]; simpl; [reflexivity|exact IH]. Qed.

(** A body without the alias key is not rejected as invalid: the
    lookup finds nothing, the INSERT of a NULL alias fails, and the
    caller gets the IntegrityError of the commit; no row is added. *)
Theorem build_template_without_alias td req uid now tbl :
  Endpoints.dict_get "alias" td = None ->
  Endpoints.build_template td req uid now tbl
  = (Endpoints.Failed Endpoints.RaiseIntegrityError, tbl).
Proof.
  intros H. unfold Endpoints.build_template. rewrite H, find_no_alias. reflexivity.
Qed.

Lemma build_template_without_alias_witness :
  Endpoints.build_template [("dockerfile", "FROM alpine")] (Endpoints.mkRequest [])
    "u1" 5%N []
  = (Endpoints.Failed Endpoints.RaiseIntegrityError, []).
Proof.
  exact (build_template_without_alias [("dockerfile", "FROM alpine")]
           (Endpoints.mkRequest []) "u1" 5%N [] eq_refl).
Defined.

(** build_template keeps (alias, project_id) and id unique in the
    table, and a build that succeeds has added one row, in
    default_project, under the new id, and answers with that id and
    status building. *)
Theorem build_template_keeps_table_unique td req uid now tbl :
  NoDup (map (fun x => (Endpoints.alias x, Endpoints.project_id x)) tbl) ->
  NoDup (map Endpoints.id tbl) ->
  NoDup (map (fun x => (Endpoints.alias x, Endpoints.project_id x))
             (snd (Endpoints.build_template td req uid now tbl))) /\
  NoDup (map Endpoints.id (snd (Endpoints.build_template td req uid now tbl))) /\
  forall r tbl',
    Endpoints.build_template td req uid now tbl = (Endpoints.Ok r, tbl') ->
    exists row,
      tbl' = tbl ++ [row] /\
      Endpoints.id row = uid /\
      Endpoints.project_id row = "default_project" /\
      Endpoints.dict_get "alias" td = Some (Endpoints.alias row) /\
      r = Endpoints.mkBuildResult uid (Endpoints.alias row) "default_project"
                                  "building".
Proof.
  intros Hk Hi. unfold Endpoints.build_template, Endpoints.get_project_id_from_api_key.
  destruct (find _ tbl) as [existing|].
  - simpl. repeat split; try assumption. intros r tbl' H. discriminate.
  - destruct (Endpoints.insert uid (Endpoints.dict_get "alias" td) "default_project"
                _ now tbl) as [[row tbl1]|] eqn:Hins.
    + apply endpoint_insert_some in Hins as [a [Ea [Hrow [Htbl [Hfresh Hfree]]]]].
      cbn [snd]. subst tbl1. rewrite !map_app. simpl. split; [|split].
      * apply NoDup_snoc; [exact Hk|]. intros Hin.
        apply in_map_iff in Hin as [x [Ex Hx]].
        assert (existsb (Endpoints.alias_in_project
                           (Endpoints.dict_get "alias" td) "default_project") tbl
                = true); [|congruence].
        apply existsb_exists. exists x. split; [exact Hx|].
        rewrite Ea. unfold Endpoints.alias_in_project.
        subst row. simpl in Ex. inversion Ex as [[E1 E2]].
        rewrite !String.eqb_refl. reflexivity.
      * apply NoDup_snoc; [exact Hi|]. intros Hin.
        apply in_map_iff in Hin as [x [Ex Hx]].
        assert (existsb (fun y => String.eqb (Endpoints.id y) uid) tbl = true);
          [|congruence].
        apply existsb_exists. exists x. split; [exact Hx|].
        subst row. simpl in Ex. rewrite Ex. apply String.eqb_refl.
      * intros r tbl' H. inversion H; subst. eexists. repeat split.
        simpl. exact Ea.
    + simpl. repeat split; try assumption. intros r tbl' H. discriminate.
Qed.

Lemma build_template_keeps_table_unique_witness :
  NoDup (map (fun x => (Endpoints.alias x, Endpoints.project_id x))
             [Endpoints.mkTemplate "u1" "web" "default_project" "" 5%N None]) /\
  NoDup (map Endpoints.id
             [Endpoints.mkTemplate "u1" "web" "default_project" "" 5%N None]) /\
  NoDup (map (fun x => (Endpoints.alias x, Endpoints.project_id x))
             (snd (Endpoints.build_template [("alias", "api")] (Endpoints.mkRequest [])
                     "u2" 6%N
                     [Endpoints.mkTemplate "u1" "web" "default_project" "" 5%N None]))) /\
  NoDup (map Endpoints.id
             (snd (Endpoints.build_template [("alias", "api")] (Endpoints.mkRequest [])
                     "u2" 6%N
                     [Endpoints.mkTemplate "u1" "web" "default_project" "" 5%N None]))) /\
  exists row,
    [Endpoints.mkTemplate "u1" "web" "default_project" "" 5%N None;
     Endpoints.mkTemplate "u2" "api" "default_project" "" 6%N None]
    = [Endpoints.mkTemplate "u1" "web" "default_project" "" 5%N None] ++ [row] /\
    Endpoints.id row = "u2" /\
    Endpoints.project_id row = "default_project" /\
    Endpoints.dict_get "alias" [("alias", "api")] = Some (Endpoints.alias row) /\
    Endpoints.mkBuildResult "u2" "api" "default_project" "building"
    = Endpoints.mkBuildResult "u2" (Endpoints.alias row) "default_project" "building".
Proof.
  assert (Hk : NoDup (map (fun x => (Endpoints.alias x, Endpoints.project_id x))
                        [Endpoints.mkTemplate "u1" "web" "default_project" "" 5%N None])).
  { constructor; [intros []|constructor]. }
  assert (Hi : NoDup (map Endpoints.id
                        [Endpoints.mkTemplate "u1" "web" "default_project" "" 5%N None])).
  { constructor; [intros []|constructor]. }
  destruct (build_template_keeps_table_unique [("alias", "api")]
              (Endpoints.mkRequest []) "u2" 6%N
              [Endpoints.mkTemplate "u1" "web" "default_project" "" 5%N None] Hk Hi)
    as [A [B C]].
  split; [exact Hk|split; [exact Hi|split; [exact A|split; [exact B|]]]].
  exact (C (Endpoints.mkBuildResult "u2" "api" "default_project" "building")
           [Endpoints.mkTemplate "u1" "web" "default_project" "" 5%N None;
            Endpoints.mkTemplate "u2" "api" "default_project" "" 6%N None]
           eq_refl).
Defined.

